(** * Resumable batch transcription: the pipeline of [transcribe_mp3_v2.py]
      and [transcribe_audio_cuda.py]

    The two scripts walk a directory tree, skip the audio files that are
    recorded in a processed-list file or whose three outputs exist, and for
    the others call Whisper, write a [.txt], a [.docx] and a [.pdf], and append
    to a success log, an error log and the processed list.

    Conventions of the embedding.
    - A Python [str] is represented by its UTF-8 encoding, a [string] of
      bytes; a file holds bytes.  Writing text to a file opened with
      [encoding="utf-8"] stores the representation as it is; reading decodes,
      and fails on bytes that are not UTF-8.  UTF-8 is self-synchronising, so
      the byte sequence of a code point occurs in an encoded text exactly
      where the code point occurs in the text: [splitlines], [strip] and
      [split] are written on the encoded form.
    - [os.path] is [posixpath] and [os.linesep] is a single line feed.
    - The disk is one finite map from paths to file contents, shared by the
      logs, the processed list and the artifacts.
    - Whisper, python-docx, reportlab and the clock are oracles of the
      environment, indexed by a tick that every call advances.
    - [os.walk] is modelled over a snapshot of the tree, a [dirtree]: the
      files and subdirectories it lists.  The disk holds files, not
      directories: [os.path.exists] is asked of file paths only, and
      [os.makedirs(exist_ok=True)] changes no file.
    - The failures of the model are those of the code's own collaborators:
      Whisper and the three writers may raise (the oracles say when, and what
      a failed writer leaves on disk), and decoding a file may raise.
      Appending a line to a log or to the processed list, and creating a
      directory, succeed.
    - [print] is not modelled, nor the clock readings that only feed it;
      loading the Whisper model and probing ffmpeg happen before the loop and
      belong to the environment. *)

From Stdlib Require Import NArith Ascii String List Lia.
From stdpp Require Import base gmap sets list strings.

Local Open Scope N_scope.

(** ** Python's [str] and [os.path] primitives *)
Module Py.

Definition code (a : ascii) : N := N_of_ascii a.

Definition between (lo hi : N) (a : ascii) : bool :=
  (lo <=? code a) && (code a <=? hi).

Definition byte_is (n : N) (a : ascii) : bool := code a =? n.

Definition LF : ascii := ascii_of_N 10.
Definition SPACE : ascii := ascii_of_N 32.

(** *** Decoding

    [utf8_valid] accepts what Python's strict [utf-8] codec decodes: the
    well-formed sequences of RFC 3629 (no overlong form, no surrogate,
    nothing above U+10FFFF). *)
Definition cont (a : ascii) : bool := between 0x80 0xBF a.

Definition second3 (lead b : ascii) : bool :=
  if byte_is 0xE0 lead then between 0xA0 0xBF b
  else if byte_is 0xED lead then between 0x80 0x9F b
  else cont b.

Definition second4 (lead b : ascii) : bool :=
  if byte_is 0xF0 lead then between 0x90 0xBF b
  else if byte_is 0xF4 lead then between 0x80 0x8F b
  else cont b.

Fixpoint utf8_valid (s : string) : bool :=
  match s with
  | EmptyString => true
  | String a r =>
      if code a <? 0x80 then utf8_valid r
      else if between 0xC2 0xDF a then
        match r with
        | String b r1 => cont b && utf8_valid r1
        | _ => false
        end
      else if between 0xE0 0xEF a then
        match r with
        | String b (String c r2) => second3 a b && cont c && utf8_valid r2
        | _ => false
        end
      else if between 0xF0 0xF4 a then
        match r with
        | String b (String c (String d r3)) =>
            second4 a b && cont c && cont d && utf8_valid r3
        | _ => false
        end
      else false
  end.

(** Text-mode reading with [newline=None]: a carriage return, alone or
    followed by a line feed, is read as one line feed. *)
Fixpoint universal_newlines (s : string) : string :=
  match s with
  | EmptyString => EmptyString
  | String a r =>
      if byte_is 13 a then
        match r with
        | String b r1 =>
            if byte_is 10 b then String LF (universal_newlines r1)
            else String LF (universal_newlines r)
        | EmptyString => String LF EmptyString
        end
      else String a (universal_newlines r)
  end.

(** *** [str.splitlines]

    Line boundaries: LF, VT, FF, FS, GS, RS, CR, CR LF, U+0085 (C2 85),
    U+2028 and U+2029 (E2 80 A8, E2 80 A9).  The last line is dropped when
    it is empty. *)
Definition eol1 (a : ascii) : bool :=
  between 10 12 a || between 0x1C 0x1E a.

Definition snoc (s : string) (a : ascii) : string := s +:+ String a EmptyString.

Definition flush (cur : string) : list string :=
  match cur with EmptyString => [] | _ => [cur] end.

Fixpoint splitlines_go (cur s : string) : list string :=
  match s with
  | EmptyString => flush cur
  | String a r =>
      if eol1 a then cur :: splitlines_go EmptyString r
      else if byte_is 13 a then
        match r with
        | String b r1 =>
            if byte_is 10 b then cur :: splitlines_go EmptyString r1
            else cur :: splitlines_go EmptyString r
        | EmptyString => cur :: splitlines_go EmptyString r
        end
      else if byte_is 0xC2 a then
        match r with
        | String b r1 =>
            if byte_is 0x85 b then cur :: splitlines_go EmptyString r1
            else splitlines_go (snoc cur a) r
        | EmptyString => splitlines_go (snoc cur a) r
        end
      else if byte_is 0xE2 a then
        match r with
        | String b (String c r2) =>
            if byte_is 0x80 b && between 0xA8 0xA9 c
            then cur :: splitlines_go EmptyString r2
            else splitlines_go (snoc cur a) r
        | _ => splitlines_go (snoc cur a) r
        end
      else splitlines_go (snoc cur a) r
  end.

Definition splitlines (s : string) : list string := splitlines_go EmptyString s.

(** *** [str.strip]

    White space is what [str.isspace] accepts: U+0009..U+000D,
    U+001C..U+0020, U+0085, U+00A0, U+1680, U+2000..U+200A, U+2028, U+2029,
    U+202F, U+205F and U+3000. *)
Definition space1 (a : ascii) : bool :=
  between 9 13 a || between 0x1C 0x20 a.

Definition space2 (a b : ascii) : bool :=
  byte_is 0xC2 a && (byte_is 0x85 b || byte_is 0xA0 b).

Definition space3 (a b c : ascii) : bool :=
  (byte_is 0xE1 a && byte_is 0x9A b && byte_is 0x80 c)
  || (byte_is 0xE2 a && byte_is 0x80 b
        && (between 0x80 0x8A c || between 0xA8 0xA9 c || byte_is 0xAF c))
  || (byte_is 0xE2 a && byte_is 0x81 b && byte_is 0x9F c)
  || (byte_is 0xE3 a && byte_is 0x80 b && byte_is 0x80 c).

Fixpoint lstrip (s : string) : string :=
  match s with
  | EmptyString => EmptyString
  | String a r =>
      if space1 a then lstrip r
      else
        match r with
        | String b r1 =>
            if space2 a b then lstrip r1
            else
              match r1 with
              | String c r2 => if space3 a b c then lstrip r2 else s
              | EmptyString => s
              end
        | EmptyString => s
        end
  end.

(** [rstrip] scans from the left: a white-space character is dropped when
    nothing but white space follows it. *)
Fixpoint rstrip (s : string) : string :=
  match s with
  | EmptyString => EmptyString
  | String a r =>
      if space1 a then
        match rstrip r with
        | EmptyString => EmptyString
        | t => String a t
        end
      else
        match r with
        | String b r1 =>
            if space2 a b then
              match rstrip r1 with
              | EmptyString => EmptyString
              | t => String a (String b t)
              end
            else
              match r1 with
              | String c r2 =>
                  if space3 a b c then
                    match rstrip r2 with
                    | EmptyString => EmptyString
                    | t => String a (String b (String c t))
                    end
                  else String a (rstrip r)
              | EmptyString => String a (rstrip r)
              end
        | EmptyString => String a (rstrip r)
        end
  end.

Definition strip (s : string) : string := rstrip (lstrip s).

(** *** [str.split] on the separator of two line feeds, [str.replace] of a
    line feed by a space, [str.endswith] *)
Fixpoint split_blank_go (cur s : string) : list string :=
  match s with
  | EmptyString => [cur]
  | String a r =>
      if byte_is 10 a then
        match r with
        | String b r1 =>
            if byte_is 10 b then cur :: split_blank_go EmptyString r1
            else split_blank_go (snoc cur a) r
        | EmptyString => split_blank_go (snoc cur a) r
        end
      else split_blank_go (snoc cur a) r
  end.

Definition split_blank (s : string) : list string :=
  split_blank_go EmptyString s.

Fixpoint replace_lf_space (s : string) : string :=
  match s with
  | EmptyString => EmptyString
  | String a r =>
      String (if byte_is 10 a then SPACE else a) (replace_lf_space r)
  end.

Fixpoint startswith (s p : string) : bool :=
  match p, s with
  | EmptyString, _ => true
  | String b p', String a s' => Ascii.eqb a b && startswith s' p'
  | String _ _, EmptyString => false
  end.

Definition endswith (s suffix : string) : bool :=
  startswith (String.rev s) (String.rev suffix).

(** *** [os.path]: [join], [splitext], [basename], [dirname] of [posixpath] *)
Definition SLASH : ascii := ascii_of_N 47.
Definition DOT : ascii := ascii_of_N 46.

Fixpoint rfind_go (c : ascii) (s : string) (i : nat) (last : option nat)
  : option nat :=
  match s with
  | EmptyString => last
  | String a r => rfind_go c r (S i) (if Ascii.eqb a c then Some i else last)
  end.

(** [s.rfind(c)], with [None] for -1. *)
Definition rfind (c : ascii) (s : string) : option nat := rfind_go c s 0%nat None.

(** [s[i:]] and [s[:i]] *)
Fixpoint drop_str (i : nat) (s : string) : string :=
  match i, s with
  | S i', String _ r => drop_str i' r
  | _, _ => s
  end.

Fixpoint take_str (i : nat) (s : string) : string :=
  match i, s with
  | S i', String a r => String a (take_str i' r)
  | _, _ => EmptyString
  end.

Definition after_sep (p : string) : nat :=
  match rfind SLASH p with Some i => S i | None => 0%nat end.

Definition join (a b : string) : string :=
  if startswith b (String SLASH EmptyString) then b
  else if String.eqb a EmptyString || endswith a (String SLASH EmptyString)
       then a +:+ b
       else a +:+ String SLASH EmptyString +:+ b.

(** [genericpath._splitext]: the extension starts at the last dot of the
    last component, unless only dots precede it there. *)
Definition splitext (p : string) : string * string :=
  match rfind DOT p with
  | Some d =>
      let start := after_sep p in
      if (start <=? d)%nat
           && existsb (fun k => negb (String.eqb (take_str 1 (drop_str k p))
                                                 (String DOT EmptyString)))
                      (seq start (d - start))
      then (take_str d p, drop_str d p)
      else (p, EmptyString)
  | None => (p, EmptyString)
  end.

Definition basename (p : string) : string := drop_str (after_sep p) p.

Fixpoint all_slashes (s : string) : bool :=
  match s with
  | EmptyString => true
  | String a r => Ascii.eqb a SLASH && all_slashes r
  end.

(** [head.rstrip('/')] *)
Fixpoint rstrip_slash (s : string) : string :=
  match s with
  | EmptyString => EmptyString
  | String a r =>
      match rstrip_slash r with
      | EmptyString => if Ascii.eqb a SLASH then EmptyString else String a EmptyString
      | t => String a t
      end
  end.

Definition dirname (p : string) : string :=
  let head := take_str (after_sep p) p in
  if negb (String.eqb head EmptyString) && negb (all_slashes head)
  then rstrip_slash head else head.

End Py.

Local Close Scope N_scope.

(** ** The host: disk, clock, external libraries *)

(** A Python call returns or raises; [Raise e] carries [str(e)]. *)
Inductive outcome (A : Type) : Type :=
| Ok (a : A)
| Raise (e : string).
Arguments Ok {A} a.
Arguments Raise {A} e.

(** The calls to the external collaborators a run makes, each noted with the
    audio file whose iteration makes it. *)
Inductive call : Type := Transcribe | SaveTxt | SaveDocx | SavePdf.

#[global] Instance call_eq_dec : EqDecision call.
Proof. solve_decision. Defined.

(** What the scripts take from their environment.  A writer that fails
    returns the message of its exception and, when the failure left a file
    behind, that file's content. *)
Record env : Type := {
  lower : string -> string;                 (* str.lower *)
  abspath : string -> string;               (* os.path.abspath *)
  whisper : nat -> string -> outcome (option string);
                                            (* model.transcribe(p).get("text") *)
  txt_fault : nat -> string -> option (string * option string);
  docx_fault : nat -> string -> option (string * option string);
  pdf_fault : nat -> string -> option (string * option string);
  docx_bytes : list string -> string;       (* a document of these paragraphs *)
  pdf_bytes : string -> list string -> string;
                                            (* font, paragraphs *)
  ttf_loads : string -> bool;               (* TTFont(name, file) succeeds *)
  now_text : nat -> string;                 (* str(datetime.now()) *)
  elapsed_text : nat -> nat -> string       (* f"{end - start:.2f}" *)
}.

(** The disk, the tick of the next external call, the calls made so far, and
    the local variables of the running script. *)
Record state (L : Type) : Type := St {
  fs : gmap string string;
  tick : nat;
  trace : list (string * call);
  locals : L
}.
Arguments St {L} fs tick trace locals.
Arguments fs {L} s.
Arguments tick {L} s.
Arguments trace {L} s.
Arguments locals {L} s.

Definition M (L A : Type) : Type := state L -> outcome A * state L.

#[global] Instance M_ret {L} : MRet (M L) := fun A a st => (Ok a, st).

#[global] Instance M_bind {L} : MBind (M L) := fun A B f m st =>
  match m st with
  | (Ok a, st') => f a st'
  | (Raise e, st') => (Raise e, st')
  end.

Definition raise {L A} (e : string) : M L A := fun st => (Raise e, st).

(** [try: body / except Exception as e: handler(str(e))] *)
Definition try_except {L} (body : M L unit) (handler : string -> M L unit)
  : M L unit := fun st =>
  match body st with
  | (Ok a, st') => (Ok a, st')
  | (Raise e, st') => handler e st'
  end.

(** [for x in l: body(x)]; an exception leaves the loop. *)
Fixpoint for_each {L A} (l : list A) (body : A -> M L unit) : M L unit :=
  match l with
  | [] => mret tt
  | x :: l' => body x ;; for_each l' body
  end.

Definition get_locals {L} : M L L := fun st => (Ok (locals st), st).

Definition set_locals {L} (f : L -> L) : M L unit := fun st =>
  (Ok tt, St (fs st) (tick st) (trace st) (f (locals st))).

Definition set_fs {L} (f : gmap string string -> gmap string string)
  : M L unit := fun st =>
  (Ok tt, St (f (fs st)) (tick st) (trace st) (locals st)).

(** The tick of this external call; the next call gets the next one. *)
Definition next_tick {L} : M L nat := fun st =>
  (Ok (tick st), St (fs st) (S (tick st)) (trace st) (locals st)).

Definition note {L} (file : string) (c : call) : M L unit := fun st =>
  (Ok tt, St (fs st) (tick st) (trace st ++ [(file, c)]) (locals st)).

(** *** Files *)

(** [open(path, "a").write(text)]: the file is created when missing. *)
Definition append_file (path text : string) (d : gmap string string)
  : gmap string string :=
  <[path := default EmptyString (d !! path) +:+ text]> d.

(** [os.path.exists] *)
Definition exists_ {L} (path : string) : M L bool := fun st =>
  (Ok (bool_decide (is_Some (fs st !! path))), st).

(** [open(path, "r", encoding="utf-8").read()] *)
Definition read_text {L} (path : string) : M L string := fun st =>
  match fs st !! path with
  | Some bytes =>
      if Py.utf8_valid bytes then (Ok (Py.universal_newlines bytes), st)
      else (Raise "UnicodeDecodeError", st)
  | None => (Raise "FileNotFoundError", st)
  end.

(** A write by an external writer: it stores [content], or fails with the
    fault the environment announces and leaves what the fault says. *)
Definition external_write {L}
    (fault : nat -> string -> option (string * option string))
    (path content : string) : M L unit :=
  t ← next_tick;
  match fault t path with
  | None => set_fs <[path := content]>
  | Some (e, Some partial) => set_fs <[path := partial]> ;; raise e
  | Some (e, None) => raise e
  end.

(** [datetime.now()] and [time.time()] *)
Definition clock {L} : M L nat := next_tick.

(** *** Directories and [os.walk]

    A directory lists its files and its sub-directories; [Gone] is a
    directory that cannot be listed any more when the walk reaches it
    ([os.walk] without [onerror] yields nothing for it and goes on). *)
#[warnings="-register-all"]
Inductive dirtree : Type :=
| Dir (files : list string) (subdirs : list (string * dirtree))
| Gone.

(** [os.walk(top)], top-down: the directory itself, then each
    sub-directory in turn. *)
Fixpoint walk (top : string) (t : dirtree) : list (string * list string) :=
  match t with
  | Dir files subdirs =>
      (top, files)
        :: flat_map (fun sub => walk (Py.join top (fst sub)) (snd sub)) subdirs
  | Gone => []
  end.

(** The three outputs of an audio file: beside it, with its base name. *)
Definition artifact (dir base ext : string) : string :=
  Py.join dir (base +:+ ext).

(** [any(filename.lower().endswith(ext') for ext in exts)], where [ext'] is
    [ext.lower()] in [transcribe_mp3_v2] and [ext] in
    [transcribe_audio_cuda]. *)
Definition has_ext (E : env) (norm : string -> string) (exts : list string)
    (filename : string) : bool :=
  existsb (fun ext => Py.endswith (lower E filename) (norm ext)) exts.

(** ** [transcribe_mp3_v2.py] *)
Module V2.

Record config : Type := {
  root_folder : string;          (* absolute, as line 167 makes it *)
  exts : list string;
  log_success_abs : string;
  log_error_abs : string;
  processed_list_abs : string
}.

(** The local variables of [transcribe_folder]. *)
Record vars : Type := Vars {
  processed : gset string;
  font_name : string;
  total : nat;
  skipped_processed : nat;
  skipped_existing : nat;
  succeeded : nat;
  failed : nat
}.

Definition add_processed (p : string) (v : vars) : vars :=
  Vars ({[p]} ∪ processed v) (font_name v) (total v) (skipped_processed v)
       (skipped_existing v) (succeeded v) (failed v).
Definition incr_total (v : vars) : vars :=
  Vars (processed v) (font_name v) (S (total v)) (skipped_processed v)
       (skipped_existing v) (succeeded v) (failed v).
Definition incr_skipped_processed (v : vars) : vars :=
  Vars (processed v) (font_name v) (total v) (S (skipped_processed v))
       (skipped_existing v) (succeeded v) (failed v).
Definition incr_skipped_existing (v : vars) : vars :=
  Vars (processed v) (font_name v) (total v) (skipped_processed v)
       (S (skipped_existing v)) (succeeded v) (failed v).
Definition incr_succeeded (v : vars) : vars :=
  Vars (processed v) (font_name v) (total v) (skipped_processed v)
       (skipped_existing v) (S (succeeded v)) (failed v).
Definition incr_failed (v : vars) : vars :=
  Vars (processed v) (font_name v) (total v) (skipped_processed v)
       (skipped_existing v) (succeeded v) (S (failed v)).

Definition M := (M vars).

(** [os.makedirs] of the parent: directories are not files, the disk of the
    model is unchanged. *)
Definition ensure_parent_dir (path : string) : M unit := mret tt.

Definition safe_log_append (file_path message : string) : M unit :=
  ensure_parent_dir file_path ;;
  set_fs (append_file file_path (message +:+ String Py.LF EmptyString)).

(** The lines of the file, stripped, without the empty ones, as a set. *)
Definition load_processed_set (processed_list_file : string)
  : M (gset string) :=
  e ← exists_ processed_list_file;
  if (e : bool) then
    content ← read_text processed_list_file;
    let lines :=
      filter (fun ln => ln ≠ EmptyString)
             (map Py.strip (Py.splitlines content)) in
    mret (list_to_set lines)
  else mret ∅.

Definition font_candidates : list string :=
  [ "arial.ttf"; "C:\Windows\Fonts\arial.ttf";
    "/usr/share/fonts/truetype/msttcorefonts/Arial.ttf";
    "/usr/share/fonts/truetype/msttcorefonts/arial.ttf" ].

(** The first candidate that exists decides: "Arial" when it loads,
    "Helvetica" when loading it raises or when none exists. *)
Definition register_pdf_font (E : env) : M string := fun st =>
  match filter (fun c => is_Some (fs st !! c)) font_candidates with
  | c :: _ => (Ok (if ttf_loads E c then "Arial" else "Helvetica"), st)
  | [] => (Ok "Helvetica", st)
  end.

Definition save_txt (E : env) (text path : string) : M unit :=
  ensure_parent_dir path ;;
  external_write (txt_fault E) path text.

(** [doc.add_paragraph(text)]: the whole text is one paragraph. *)
Definition docx_paragraphs (text : string) : list string := [text].

Definition save_docx (E : env) (text path : string) : M unit :=
  ensure_parent_dir path ;;
  external_write (docx_fault E) path (docx_bytes E (docx_paragraphs text)).

(** The paragraphs of the PDF story. *)
Definition pdf_paragraphs (text : string) : list string :=
  map (fun paragraph => Py.replace_lf_space (Py.strip paragraph))
      (Py.split_blank (Py.strip text)).

Definition save_pdf (E : env) (text path font : string) : M unit :=
  ensure_parent_dir path ;;
  external_write (pdf_fault E) path (pdf_bytes E font (pdf_paragraphs text)).

Definition transcribe (E : env) (full_path : string) : M (option string) :=
  t ← next_tick;
  match whisper E t full_path with
  | Ok r => mret r
  | Raise e => raise e
  end.

Section Run.
Variable E : env.
Variable C : config.

(** The [try] block of one file (lines 229-250). *)
Definition attempt (full_path txt_path docx_path pdf_path : string) : M unit :=
  start ← clock;
  note full_path Transcribe ;;
  result ← transcribe E full_path;
  let text := Py.strip (default EmptyString result) in
  note full_path SaveTxt ;;
  save_txt E text txt_path ;;
  note full_path SaveDocx ;;
  save_docx E text docx_path ;;
  v ← get_locals;
  note full_path SavePdf ;;
  save_pdf E text pdf_path (font_name v) ;;
  stop ← clock;
  stamp ← clock;
  safe_log_append (log_success_abs C)
    (now_text E stamp +:+ " | SUCCESS | " +:+ full_path +:+ " | "
       +:+ elapsed_text E start stop +:+ " sec") ;;
  safe_log_append (processed_list_abs C) full_path ;;
  set_locals (add_processed full_path) ;;
  set_locals incr_succeeded.

(** The [except] block (lines 251-255). *)
Definition on_error (full_path e : string) : M unit :=
  stamp ← clock;
  safe_log_append (log_error_abs C)
    (now_text E stamp +:+ " | ERROR | " +:+ full_path +:+ " | " +:+ e) ;;
  set_locals incr_failed.

(** The body of the inner loop (lines 200-255). *)
Definition visit (dirpath filename : string) : M unit :=
  if negb (has_ext E (lower E) (exts C) filename) then mret tt
  else
    set_locals incr_total ;;
    let full_path := abspath E (Py.join dirpath filename) in
    let base_name := fst (Py.splitext filename) in
    v ← get_locals;
    if decide (full_path ∈ processed v) then
      set_locals incr_skipped_processed
    else
      let txt_path := artifact dirpath base_name ".txt" in
      let docx_path := artifact dirpath base_name ".docx" in
      let pdf_path := artifact dirpath base_name ".pdf" in
      e1 ← exists_ txt_path;
      e2 ← exists_ docx_path;
      e3 ← exists_ pdf_path;
      if (e1 && e2 && e3)%bool then
        safe_log_append (processed_list_abs C) full_path ;;
        set_locals (add_processed full_path) ;;
        set_locals incr_skipped_existing
      else
        try_except (attempt full_path txt_path docx_path pdf_path)
                   (on_error full_path).

(** The two loops over what [os.walk] yields (lines 198-199). *)
Definition visit_all (dirs : list (string * list string)) : M unit :=
  for_each dirs (fun d => for_each (snd d) (visit (fst d))).

(** [transcribe_folder], from the loading of the processed set on; loading
    the Whisper model is the environment's. *)
Definition transcribe_folder (t : dirtree) : M unit :=
  ensure_parent_dir (log_success_abs C) ;;
  ensure_parent_dir (log_error_abs C) ;;
  ensure_parent_dir (processed_list_abs C) ;;
  loaded ← load_processed_set (processed_list_abs C);
  font ← register_pdf_font E;
  set_locals (fun _ => Vars loaded font 0 0 0 0 0) ;;
  visit_all (walk (root_folder C) t).

End Run.
End V2.

(** ** [transcribe_audio_cuda.py] *)
Module Cuda.

(** The global variables the loop reads. *)
Record vars : Type := Vars {
  processed : gset string;
  PDF_FONT : string
}.

Definition M := (M vars).

Section Run.
Variable E : env.
Variable ROOT_FOLDER : string.   (* absolute, as line 50 makes it *)

Definition LOG_SUCCESS : string := Py.join ROOT_FOLDER "transcribe_log_success.txt".
Definition LOG_ERROR : string := Py.join ROOT_FOLDER "transcribe_log_error.txt".
Definition PROCESSED_LIST : string :=
  Py.join ROOT_FOLDER "transcribe_processed_files.txt".

Definition SUPPORTED_EXT : list string :=
  [".mp3"; ".m4a"; ".wav"; ".flac"; ".ogg"; ".aac"; ".wma"; ".webm"].

Definition log_write (file message : string) : M unit :=
  set_fs (append_file file (message +:+ String Py.LF EmptyString)).

(** The lines of the file as a set, empty lines included. *)
Definition load_processed_files : M (gset string) :=
  e ← exists_ PROCESSED_LIST;
  if (e : bool) then
    content ← read_text PROCESSED_LIST;
    mret (list_to_set (Py.splitlines content))
  else mret ∅.

Definition save_txt (text path : string) : M unit :=
  external_write (txt_fault E) path text.

(** One paragraph for each piece between two blank-line separators. *)
Definition docx_paragraphs (text : string) : list string :=
  map Py.strip (Py.split_blank (Py.strip text)).

Definition save_docx (text path : string) : M unit :=
  external_write (docx_fault E) path (docx_bytes E (docx_paragraphs text)).

Definition pdf_paragraphs (text : string) : list string :=
  map (fun paragraph => Py.replace_lf_space (Py.strip paragraph))
      (Py.split_blank (Py.strip text)).

Definition save_pdf (text path pdf_font : string) : M unit :=
  external_write (pdf_fault E) path (pdf_bytes E pdf_font (pdf_paragraphs text)).

Definition transcribe (full_path : string) : M (option string) :=
  t ← next_tick;
  match whisper E t full_path with
  | Ok r => mret r
  | Raise e => raise e
  end.

(** The collection loop (lines 187-192). *)
Definition collect (t : dirtree) : list string :=
  flat_map (fun d =>
              map (fun filename => abspath E (Py.join (fst d) filename))
                  (filter (fun filename =>
                             has_ext E (fun ext => ext) SUPPORTED_EXT filename = true)
                          (snd d)))
           (walk ROOT_FOLDER t).

(** The [try] block of one file (lines 220-252). *)
Definition attempt (full_path txt_path docx_path pdf_path : string) : M unit :=
  e ← exists_ full_path;
  if negb e then
    stamp ← clock;
    log_write LOG_ERROR
      (now_text E stamp +:+ " | ERROR | " +:+ full_path +:+ " | File not found")
  else
    start ← clock;
    note full_path Transcribe ;;
    result ← transcribe full_path;
    let text := Py.strip (default EmptyString result) in
    note full_path SaveTxt ;;
    save_txt text txt_path ;;
    note full_path SaveDocx ;;
    save_docx text docx_path ;;
    v ← get_locals;
    note full_path SavePdf ;;
    save_pdf text pdf_path (PDF_FONT v) ;;
    stop ← clock;
    stamp ← clock;
    log_write LOG_SUCCESS
      (now_text E stamp +:+ " | SUCCESS | " +:+ full_path +:+ " | "
         +:+ elapsed_text E start stop +:+ " sec") ;;
    log_write PROCESSED_LIST full_path.

(** The [except] block (lines 254-256). *)
Definition on_error (full_path e : string) : M unit :=
  stamp ← clock;
  log_write LOG_ERROR
    (now_text E stamp +:+ " | ERROR | " +:+ full_path +:+ " | " +:+ e).

(** The body of the transcription loop (lines 202-256). *)
Definition visit (full_path : string) : M unit :=
  let filename := Py.basename full_path in
  let base_name := fst (Py.splitext filename) in
  let out_dir := Py.dirname full_path in
  let txt_path := artifact out_dir base_name ".txt" in
  let docx_path := artifact out_dir base_name ".docx" in
  let pdf_path := artifact out_dir base_name ".pdf" in
  e1 ← exists_ txt_path;
  e2 ← exists_ docx_path;
  e3 ← exists_ pdf_path;
  let already_converted := (e1 && e2 && e3)%bool in
  v ← get_locals;
  if (bool_decide (full_path ∈ processed v) || already_converted)%bool
  then mret tt
  else try_except (attempt full_path txt_path docx_path pdf_path)
                  (on_error full_path).

(** The script from the registration of the font on (lines 138-256),
    without the choice of the device and the loading of the model. *)
Definition main (t : dirtree) : M unit :=
  let font := if ttf_loads E "arial.ttf" then "Arial" else "Helvetica" in
  let all_files := collect t in
  loaded ← load_processed_files;
  set_locals (fun _ => Vars loaded font) ;;
  for_each all_files visit.

End Run.
End Cuda.

(** ** Vocabulary of the properties *)

(** The content of a file, empty for a missing one. *)
Definition content (d : gmap string string) (p : string) : string :=
  default EmptyString (d !! p).

(** The text of some lines, each closed by a line feed. *)
Definition lines_text (msgs : list string) : string :=
  fold_right (fun m acc => m +:+ String Py.LF EmptyString +:+ acc) EmptyString msgs.

(** A text that is one line: not empty, decodable, without line boundary. *)
Definition one_line (p : string) : Prop :=
  Py.splitlines p = [p] /\ Py.utf8_valid p = true.

(** A text without white space at its ends. *)
Definition bare (p : string) : Prop := Py.strip p = p.

(** Segments separated by one blank line each. *)
Definition join_blank (segs : list string) : string :=
  String.concat (String Py.LF (String Py.LF EmptyString)) segs.

(** [d'] holds what [d] holds at [p], then some new lines. *)
Definition appended (d d' : gmap string string) (p : string) : Prop :=
  exists msgs, content d' p = content d p +:+ lines_text msgs.

(** Nothing that exists in [d] is missing in [d']. *)
Definition keeps_files (d d' : gmap string string) : Prop :=
  forall p, is_Some (d !! p) -> is_Some (d' !! p).

(** The (directory, file name) pairs in the order the two loops reach them. *)
Definition pairs (dirs : list (string * list string)) : list (string * string) :=
  flat_map (fun d => map (pair (fst d)) (snd d)) dirs.




(** The calls noted for [file] in a trace. *)
Definition calls_for (file : string) (tr : list (string * call)) : list call :=
  map snd (filter (fun x => fst x = file) tr).


(** The first failure of an attempt started at tick [t]: the text of the
    exception and the tick at which the [except] block reads the clock;
    [None] when Whisper and the three writers all succeed. *)
Definition failure (E : env) (t : nat) (p a b c : string) : option (string * nat) :=
  match whisper E (S t) p with
  | Raise e => Some (e, S (S t))
  | Ok _ =>
      match txt_fault E (S (S t)) a with
      | Some (e, _) => Some (e, S (S (S t)))
      | None =>
          match docx_fault E (S (S (S t))) b with
          | Some (e, _) => Some (e, S (S (S (S t))))
          | None =>
              match pdf_fault E (S (S (S (S t)))) c with
              | Some (e, _) => Some (e, S (S (S (S (S t)))))
              | None => None
              end
          end
      end
  end.

(** The line the [except] block writes for exception text [e] at tick [t]. *)
Definition error_line (E : env) (t : nat) (p e : string) : string :=
  now_text E t +:+ " | ERROR | " +:+ p +:+ " | " +:+ e.

Module V2Spec.
Import V2.

Definition full (E : env) (d f : string) : string := abspath E (Py.join d f).

Definition outputs (d f : string) : list string :=
  let base := fst (Py.splitext f) in
  [artifact d base ".txt"; artifact d base ".docx"; artifact d base ".pdf"].

Definition materialized (disk : gmap string string) (d f : string) : Prop :=
  Forall (fun p => is_Some (disk !! p)) (outputs d f).

Definition candidate (E : env) (C : config) (f : string) : Prop :=
  has_ext E (lower E) (exts C) f = true.

#[global] Instance candidate_dec E C f : Decision (candidate E C f).
Proof. unfold candidate. apply _. Defined.

(** What an attempt without failure leaves, [r] being Whisper's text. *)
Definition success_state (E : env) (C : config) (p a b c : string)
    (r : option string) (st : state vars) : state vars :=
  let text := Py.strip (default EmptyString r) in
  let t := tick st in
  St (append_file (processed_list_abs C) (p +:+ String Py.LF EmptyString)
        (append_file (log_success_abs C)
           ((now_text E (t + 6) +:+ " | SUCCESS | " +:+ p +:+ " | "
               +:+ elapsed_text E t (t + 5) +:+ " sec")
              +:+ String Py.LF EmptyString)
           (<[c := pdf_bytes E (font_name (locals st)) (pdf_paragraphs text)]>
              (<[b := docx_bytes E (docx_paragraphs text)]> (<[a := text]> (fs st))))))
     (t + 7)
     (trace st ++ [(p, Transcribe); (p, SaveTxt); (p, SaveDocx); (p, SavePdf)])
     (incr_succeeded (add_processed p (locals st))).

(** A file the iteration will attempt: it has an allowed extension, is not
    in the processed set and lacks one of its outputs. *)
Definition eligible (E : env) (C : config) (st : state vars) (d f : string)
  : Prop :=
  candidate E C f /\ (full E d f ∉ processed (locals st))
  /\ ~ materialized (fs st) d f.

(** The first failure of the attempt an iteration for [d], [f] makes. *)
Definition fails (E : env) (st : state vars) (d f : string)
  : option (string * nat) :=
  failure E (tick st) (full E d f) (artifact d (fst (Py.splitext f)) ".txt")
          (artifact d (fst (Py.splitext f)) ".docx")
          (artifact d (fst (Py.splitext f)) ".pdf").

(** The five ends of one iteration (the state machine of a file), with the
    state each leaves. *)
Inductive verdict : Type :=
| NotCandidate | SkippedProcessed | SkippedExisting | Succeeded | Failed.

Inductive visited (E : env) (C : config) (d f : string) (st : state vars)
  : verdict -> state vars -> Prop :=
| visited_other :
    ~ candidate E C f ->
    visited E C d f st NotCandidate st
| visited_processed :
    candidate E C f -> full E d f ∈ processed (locals st) ->
    visited E C d f st SkippedProcessed
      (St (fs st) (tick st) (trace st)
          (incr_skipped_processed (incr_total (locals st))))
| visited_existing :
    candidate E C f -> full E d f ∉ processed (locals st) ->
    materialized (fs st) d f ->
    visited E C d f st SkippedExisting
      (St (append_file (processed_list_abs C)
                       (full E d f +:+ String Py.LF EmptyString) (fs st))
          (tick st) (trace st)
          (incr_skipped_existing
             (add_processed (full E d f) (incr_total (locals st)))))
| visited_succeeded r :
    candidate E C f -> full E d f ∉ processed (locals st) ->
    ~ materialized (fs st) d f ->
    whisper E (S (tick st)) (full E d f) = Ok r ->
    failure E (tick st) (full E d f) (artifact d (fst (Py.splitext f)) ".txt")
            (artifact d (fst (Py.splitext f)) ".docx")
            (artifact d (fst (Py.splitext f)) ".pdf") = None ->
    visited E C d f st Succeeded
      (success_state E C (full E d f) (artifact d (fst (Py.splitext f)) ".txt")
         (artifact d (fst (Py.splitext f)) ".docx")
         (artifact d (fst (Py.splitext f)) ".pdf") r
         (St (fs st) (tick st) (trace st) (incr_total (locals st))))
| visited_failed e disk t new :
    candidate E C f -> full E d f ∉ processed (locals st) ->
    ~ materialized (fs st) d f ->
    failure E (tick st) (full E d f) (artifact d (fst (Py.splitext f)) ".txt")
            (artifact d (fst (Py.splitext f)) ".docx")
            (artifact d (fst (Py.splitext f)) ".pdf") = Some (e, t) ->
    (forall q, q ∉ outputs d f -> disk !! q = fs st !! q) ->
    keeps_files (fs st) disk ->
    Forall (fun x => fst x = full E d f /\ snd x ≠ Transcribe) new ->
    visited E C d f st Failed
      (St (append_file (log_error_abs C)
                       (error_line E t (full E d f) e +:+ String Py.LF EmptyString)
                       disk)
          (S t) (trace st ++ (full E d f, Transcribe) :: new)
          (incr_failed (incr_total (locals st)))).

(** The state after the iteration for one file, and after a whole walk. *)
Definition step (E : env) (C : config) (st : state vars) (x : string * string)
  : state vars := snd (visit E C (fst x) (snd x) st).

Definition steps (E : env) (C : config) (l : list (string * string))
    (st : state vars) : state vars := fold_left (step E C) l st.

(** The set a processed-list file of these bytes stands for. *)
Definition stored (bytes : string) : gset string :=
  list_to_set
    (filter (fun ln => ln ≠ EmptyString)
            (map Py.strip (Py.splitlines (Py.universal_newlines bytes)))).

(** The font [register_pdf_font] settles on. *)
Definition chosen_font (E : env) (disk : gmap string string) : string :=
  match filter (fun c => is_Some (disk !! c)) font_candidates with
  | c :: _ => if ttf_loads E c then "Arial" else "Helvetica"
  | [] => "Helvetica"
  end.

(** The state in which the loops start, [known] being the loaded set. *)
Definition entry (E : env) (known : gset string) (st : state vars) : state vars :=
  St (fs st) (tick st) (trace st)
     (Vars known (chosen_font E (fs st)) 0 0 0 0 0).

Definition balanced (v : vars) : Prop :=
  total v = skipped_processed v + skipped_existing v + succeeded v + failed v.

End V2Spec.

Module CudaSpec.
Import Cuda.

Definition base_of (p : string) : string := fst (Py.splitext (Py.basename p)).

Definition outputs (p : string) : list string :=
  [artifact (Py.dirname p) (base_of p) ".txt";
   artifact (Py.dirname p) (base_of p) ".docx";
   artifact (Py.dirname p) (base_of p) ".pdf"].

Definition materialized (disk : gmap string string) (p : string) : Prop :=
  Forall (fun q => is_Some (disk !! q)) (outputs p).

(** The file is passed over: it is in the loaded set or has its outputs. *)
Definition skipped (st : state vars) (p : string) : Prop :=
  p ∈ processed (locals st) \/ materialized (fs st) p.

#[global] Instance skipped_dec (st : state vars) p : Decision (skipped st p).
Proof. unfold skipped, materialized. apply _. Defined.

Definition fails (E : env) (st : state vars) (p : string) : option (string * nat) :=
  failure E (tick st) p (artifact (Py.dirname p) (base_of p) ".txt")
          (artifact (Py.dirname p) (base_of p) ".docx")
          (artifact (Py.dirname p) (base_of p) ".pdf").

(** The set a processed-list file of these bytes stands for. *)
Definition stored (bytes : string) : gset string :=
  list_to_set (Py.splitlines (Py.universal_newlines bytes)).

(** What an attempt without failure leaves, [r] being Whisper's text. *)
Definition success_state (E : env) (root p : string) (r : option string)
    (st : state vars) : state vars :=
  let text := Py.strip (default EmptyString r) in
  let t := tick st in
  St (append_file (PROCESSED_LIST root) (p +:+ String Py.LF EmptyString)
        (append_file (LOG_SUCCESS root)
           ((now_text E (t + 6) +:+ " | SUCCESS | " +:+ p +:+ " | "
               +:+ elapsed_text E t (t + 5) +:+ " sec")
              +:+ String Py.LF EmptyString)
           (<[artifact (Py.dirname p) (base_of p) ".pdf" :=
                pdf_bytes E (PDF_FONT (locals st)) (pdf_paragraphs text)]>
              (<[artifact (Py.dirname p) (base_of p) ".docx" :=
                   docx_bytes E (docx_paragraphs text)]>
                 (<[artifact (Py.dirname p) (base_of p) ".txt" := text]> (fs st))))))
     (t + 7)
     (trace st ++ [(p, Transcribe); (p, SaveTxt); (p, SaveDocx); (p, SavePdf)])
     (locals st).

(** The four ends of one iteration, with the state each leaves. *)
Inductive verdict : Type := Skipped | Missing | Succeeded | Failed.

Inductive visited (E : env) (root p : string) (st : state vars)
  : verdict -> state vars -> Prop :=
| visited_skipped :
    skipped st p ->
    visited E root p st Skipped st
| visited_missing :
    ~ skipped st p -> fs st !! p = None ->
    visited E root p st Missing
      (St (append_file (LOG_ERROR root)
             (error_line E (tick st) p "File not found" +:+ String Py.LF EmptyString)
             (fs st))
          (S (tick st)) (trace st) (locals st))
| visited_succeeded r :
    ~ skipped st p -> is_Some (fs st !! p) ->
    whisper E (S (tick st)) p = Ok r ->
    fails E st p = None ->
    visited E root p st Succeeded (success_state E root p r st)
| visited_failed e disk t new :
    ~ skipped st p -> is_Some (fs st !! p) ->
    fails E st p = Some (e, t) ->
    (forall q, q ∉ outputs p -> disk !! q = fs st !! q) ->
    keeps_files (fs st) disk ->
    Forall (fun x => fst x = p /\ snd x ≠ Transcribe) new ->
    visited E root p st Failed
      (St (append_file (LOG_ERROR root)
             (error_line E t p e +:+ String Py.LF EmptyString) disk)
          (S t) (trace st ++ (p, Transcribe) :: new) (locals st)).

Definition step (E : env) (root : string) (st : state vars) (p : string)
  : state vars := snd (visit E root p st).


Definition steps (E : env) (root : string) (l : list string) (st : state vars)
  : state vars := fold_left (step E root) l st.

(** The state in which the loop starts, [known] being the loaded set. *)
Definition entry (E : env) (known : gset string) (st : state vars) : state vars :=
  St (fs st) (tick st) (trace st)
     (Vars known (if ttf_loads E "arial.ttf" then "Arial" else "Helvetica")).

End CudaSpec.

(** ** A sample host and sample runs, for the examples *)
Module Sample.

(** [str.lower] on the letters A to Z. *)
Fixpoint ascii_lower (s : string) : string :=
  match s with
  | EmptyString => EmptyString
  | String a r =>
      String (if Py.between 65 90 a then ascii_of_N (Py.code a + 32) else a)
             (ascii_lower r)
  end.

Definition E : env := {|
  lower := ascii_lower;
  abspath := fun s => s;
  whisper := fun _ p =>
    if String.eqb p "/r/b.wav" then Raise "bad audio" else Ok (Some " xin chao ");
  txt_fault := fun _ _ => None;
  docx_fault := fun _ _ => None;
  pdf_fault := fun _ p =>
    if String.eqb p "/r/old.pdf" then Some ("font error", None) else None;
  docx_bytes := fun ps => String.concat "|" ("DOCX" :: ps);
  pdf_bytes := fun font ps => String.concat "|" ("PDF" :: font :: ps);
  ttf_loads := fun _ => false;
  now_text := fun _ => "2025-01-01 00:00:00";
  elapsed_text := fun _ _ => "1.00"
|}.

Definition C : V2.config := {|
  V2.root_folder := "/r";
  V2.exts := [".wav"];
  V2.log_success_abs := "/log/log_success.txt";
  V2.log_error_abs := "/log/log_error.txt";
  V2.processed_list_abs := "/log/processed_files.txt"
|}.

(** The scenario of the specification: [a], [b], [c], of which [b] fails. *)
Definition abc : dirtree := Dir ["a.wav"; "b.wav"; "c.wav"] [].

Definition blank_v2 : V2.vars := V2.Vars ∅ EmptyString 0 0 0 0 0.

Definition disk_abc : gmap string string :=
  {[ "/r/a.wav" := "RIFF"; "/r/b.wav" := "RIFF"; "/r/c.wav" := "RIFF" ]}.

Definition start_abc : state V2.vars := St disk_abc 0 [] blank_v2.


(** An audio file named like the error log of [transcribe_audio_cuda]. *)
Definition namesake : dirtree := Dir ["transcribe_log_error.wav"] [].

Definition start_namesake : state Cuda.vars :=
  St {[ "/r/transcribe_log_error.wav" := "RIFF";
        "/r/transcribe_log_error.txt" := "2024-12-31 | ERROR | /r/x.wav | old" ]}
     0 [] (Cuda.Vars ∅ EmptyString).




(** An audio file beside a stale [.pdf] of an earlier tool; the writing of
    the new [.pdf] fails in [E] and leaves the stale one. *)
Definition stale : dirtree := Dir ["old.wav"] [].

Definition disk_stale : gmap string string :=
  {[ "/r/old.wav" := "RIFF"; "/r/old.pdf" := "%PDF-1.3 stale" ]}.

Definition start_stale : state V2.vars := St disk_stale 0 [] blank_v2.



Definition start_solo_cuda : state Cuda.vars :=
  St {[ "/r/a.wav" := "RIFF" ]} 0 [] (Cuda.Vars ∅ EmptyString).

(** A processed list whose last line was cut in the middle of the two
    bytes of the last letter of [/r/café.wav]. *)
Definition torn_bytes : string :=
  "/r/a.wav" +:+ String Py.LF ("/r/caf" +:+ String (ascii_of_N 195) EmptyString).

Definition start_torn : state V2.vars :=
  St {[ "/log/processed_files.txt" := torn_bytes ]} 0 [] blank_v2.

Definition start_torn_cuda : state Cuda.vars :=
  St {[ "/r/transcribe_processed_files.txt" := torn_bytes ]} 0 []
     (Cuda.Vars ∅ EmptyString).

(** A processed list with a line twice and a last line cut short. *)
Definition start_cut : state V2.vars :=
  St {[ "/log/processed_files.txt" := lines_text ["/r/a.wav"; "/r/a.wav"] +:+ "/r/b.w" ]}
     0 [] blank_v2.


End Sample.

(** * Properties *)

(** ** Strings *)
Section StringFacts.

Lemma app_cons a (s t : string) : String a s +:+ t = String a (s +:+ t).
Proof. reflexivity. Qed.

Lemma app_empty_l (s : string) : EmptyString +:+ s = s.
Proof. reflexivity. Qed.

Lemma app_empty_r (s : string) : s +:+ EmptyString = s.
Proof. induction s as [|a s IH]; [reflexivity|]. by rewrite app_cons, IH. Qed.

Lemma app_assoc_str (s t u : string) : (s +:+ t) +:+ u = s +:+ (t +:+ u).
Proof. induction s as [|a s IH]; [reflexivity|]. by rewrite !app_cons, IH. Qed.

Lemma length_app_str (s t : string) :
  String.length (s +:+ t) = String.length s + String.length t.
Proof. induction s as [|a s IH]; [reflexivity|]. rewrite app_cons. cbn [String.length]. by rewrite IH. Qed.

Lemma app_eq_empty (s t : string) : s +:+ t = EmptyString -> s = EmptyString /\ t = EmptyString.
Proof. destruct s; [intros H; split; [reflexivity|exact H]|discriminate]. Qed.

End StringFacts.

(** ** The monad *)
Section MonadFacts.
Context {L : Type}.

(** A loop whose body never raises is the fold of its state changes. *)
Lemma for_each_total {A} (body : A -> M L unit) (l : list A) (st : state L) :
  (forall x s, fst (body x s) = Ok tt) ->
  for_each l body st = (Ok tt, fold_left (fun s x => snd (body x s)) l st).
Proof.
  intros Hok. revert st. induction l as [|x l IH]; intros st; [reflexivity|].
  simpl. unfold mbind, M_bind. specialize (Hok x st).
  destruct (body x st) as [r s']. simpl in Hok. subst r. apply IH.
Qed.

Lemma for_each_app {A} (body : A -> M L unit) (l1 l2 : list A) (st : state L) :
  for_each (l1 ++ l2) body st =
  (for_each l1 body ;; for_each l2 body) st.
Proof.
  revert st. induction l1 as [|x l1 IH]; intros st; simpl.
  - unfold mbind, M_bind, mret, M_ret. reflexivity.
  - unfold mbind, M_bind in *. destruct (body x st) as [[[]|e] s']; [|reflexivity].
    apply IH.
Qed.

End MonadFacts.

(** ** Decoding, lines and stripping *)
Section PyFacts.
Import Py.

Lemma string_len_ind (P : string -> Prop) :
  (forall s, (forall t, String.length t < String.length s -> P t) -> P s) ->
  forall s, P s.
Proof.
  intros H s. remember (String.length s) as n eqn:Hn.
  revert s Hn. induction n as [n IH] using lt_wf_ind. intros s ->.
  apply H. intros t Ht. by apply (IH (String.length t)).
Qed.

(** Text followed by text is text. *)
Lemma utf8_valid_app (a b : string) :
  utf8_valid a = true -> utf8_valid (a +:+ b) = utf8_valid b.
Proof.
  induction a as [a IH] using string_len_ind. destruct a as [|x r]; [done|].
  rewrite app_cons. cbn [utf8_valid].
  destruct (code x <? 128)%N.
  { apply IH. cbn. lia. }
  destruct (between 194 223 x).
  { destruct r as [|y r1]; [done|]. rewrite app_cons.
    destruct (cont y); [|done]. cbn [andb]. apply IH. cbn. lia. }
  destruct (between 224 239 x).
  { destruct r as [|y [|z r2]]; [done..|]. rewrite !app_cons.
    destruct (second3 x y && cont z)%bool; [|done]. cbn [andb].
    apply IH. cbn. lia. }
  destruct (between 240 244 x); [|done].
  destruct r as [|y [|z [|w r3]]]; [done..|]. rewrite !app_cons.
  destruct (second4 x y && cont z && cont w)%bool; [|done]. cbn [andb].
  apply IH. cbn. lia.
Qed.

Lemma utf8_valid_lf (s : string) : utf8_valid (String LF s) = utf8_valid s.
Proof. reflexivity. Qed.

Lemma utf8_valid_lines (lines : list string) (tail : string) :
  Forall (fun p => utf8_valid p = true) lines -> utf8_valid tail = true ->
  utf8_valid (lines_text lines +:+ tail) = true.
Proof.
  intros H Ht. induction H as [|p lines Hp _ IH]; [done|].
  cbn [lines_text fold_right]. fold (lines_text lines).
  rewrite !app_assoc_str, utf8_valid_app by done.
  rewrite app_cons, utf8_valid_lf. exact IH.
Qed.

Lemma snoc_app (cur : string) (c : ascii) (s : string) :
  snoc cur c +:+ s = cur +:+ String c s.
Proof. unfold snoc. by rewrite app_assoc_str. Qed.

Lemma app_not_self (cur s : string) : s ≠ EmptyString -> cur ≠ cur +:+ s.
Proof.
  intros Hs H. apply (f_equal String.length) in H. rewrite length_app_str in H.
  destruct s; [done|]. cbn in H. lia.
Qed.

(** A string that [splitlines] returns whole (after [cur]) has no line
    boundary: the scan takes each of its bytes into the current line. *)
Lemma splitlines_go_whole (cur : string) (c : ascii) (r : string) :
  splitlines_go cur (String c r) = [cur +:+ String c r] ->
  splitlines_go (snoc cur c) r = [snoc cur c +:+ r]
  /\ eol1 c = false /\ byte_is 13 c = false
  /\ (byte_is 0xC2 c = true -> forall b r1, r = String b r1 -> byte_is 0x85 b = false)
  /\ (byte_is 0xE2 c = true -> forall b d r2, r = String b (String d r2) ->
      (byte_is 0x80 b && between 0xA8 0xA9 d)%bool = false).
Proof.
  assert (forall l, cur :: l = [cur +:+ String c r] -> False) as Hno.
  { intros l [= H _]. by apply (app_not_self cur (String c r)). }
  cbn [splitlines_go]. rewrite snoc_app.
  destruct (eol1 c); [intros H; by apply Hno in H|].
  destruct (byte_is 13 c).
  { destruct r as [|b r1]; [|destruct (byte_is 10 b)]; intros H; by apply Hno in H. }
  destruct (byte_is 194 c) eqn:H2.
  { assert (byte_is 226 c = false) as H3.
    { unfold byte_is in *. apply N.eqb_eq in H2. rewrite H2. reflexivity. }
    rewrite H3.
    destruct r as [|b r1]; [intros H; by repeat split|].
    destruct (byte_is 133 b) eqn:Hb; [intros H; by apply Hno in H|].
    intros H. split; [done|]. repeat split; try done.
    intros _ b' r' [= <- <-]. done. }
  destruct (byte_is 226 c) eqn:H3; [|intros H; by repeat split].
  destruct r as [|b [|d r2]]; [intros H; by repeat split..|].
  destruct (byte_is 128 b && between 168 169 d)%bool eqn:Hb;
    [intros H; by apply Hno in H|].
  intros H. split; [done|]. repeat split; try done.
  intros _ ? ? ? [= <- <- <-]. done.
Qed.

(** Such a line, closed by a line feed, is what [splitlines] returns first. *)
Lemma splitlines_go_line (p cur rest : string) :
  splitlines_go cur p = [cur +:+ p] ->
  splitlines_go cur (p +:+ String LF rest)
  = (cur +:+ p) :: splitlines_go EmptyString rest.
Proof.
  revert cur. induction p as [|c p IH]; intros cur H.
  { by rewrite app_empty_r. }
  apply splitlines_go_whole in H as (Hgo & H1 & H13 & HC2 & HE2).
  rewrite app_cons. cbn [splitlines_go]. rewrite H1, H13.
  rewrite <- (snoc_app cur c p). rewrite <- (IH _ Hgo).
  destruct (byte_is 194 c) eqn:H2.
  { destruct p as [|b p1]; [reflexivity|]. rewrite app_cons.
    by rewrite (HC2 eq_refl b p1). }
  destruct (byte_is 226 c) eqn:H3; [|reflexivity].
  destruct p as [|b [|d p2]]; rewrite ?app_cons, ?app_empty_l.
  - destruct rest as [|x rest']; reflexivity.
  - replace (byte_is 128 b && between 168 169 LF)%bool with false; [done|].
    by rewrite andb_false_r.
  - by rewrite (HE2 eq_refl b d p2).
Qed.

Lemma splitlines_lines_text (lines : list string) (tail : string) :
  Forall (fun p => splitlines p = [p]) lines ->
  splitlines (lines_text lines +:+ tail) = lines ++ splitlines tail.
Proof.
  unfold splitlines. induction 1 as [|p lines Hp _ IH]; [done|].
  cbn [lines_text fold_right]. fold (lines_text lines).
  rewrite !app_assoc_str, app_cons, app_empty_l.
  rewrite (splitlines_go_line p EmptyString) by done.
  rewrite IH. reflexivity.
Qed.

(** Reading such lines translates no newline. *)
Lemma universal_newlines_whole (p cur s : string) :
  splitlines_go cur p = [cur +:+ p] ->
  universal_newlines (p +:+ s) = p +:+ universal_newlines s.
Proof.
  revert cur. induction p as [|c p IH]; intros cur H; [reflexivity|].
  apply splitlines_go_whole in H as (Hgo & _ & H13 & _).
  rewrite !app_cons. cbn [universal_newlines]. rewrite H13.
  f_equal. by apply (IH (snoc cur c)).
Qed.

Lemma universal_newlines_lines_text (lines : list string) (tail : string) :
  Forall (fun p => splitlines p = [p]) lines ->
  universal_newlines (lines_text lines +:+ tail)
  = lines_text lines +:+ universal_newlines tail.
Proof.
  induction 1 as [|p lines Hp _ IH]; [done|].
  cbn [lines_text fold_right]. fold (lines_text lines).
  rewrite !app_assoc_str, app_cons, app_empty_l.
  rewrite (universal_newlines_whole p EmptyString) by done.
  rewrite app_cons. cbn [universal_newlines].
  change (byte_is 13 LF) with false. cbv iota. by rewrite IH.
Qed.

Lemma universal_newlines_line (p : string) :
  splitlines p = [p] -> universal_newlines p = p.
Proof.
  intros H. rewrite <- (app_empty_r p) at 1.
  rewrite (universal_newlines_whole p EmptyString) by done.
  apply app_empty_r.
Qed.

End PyFacts.

(** ** Stripping and splitting at blank lines *)
Section StripFacts.
Import Py.

Lemma rstrip_length (s : string) : String.length (rstrip s) <= String.length s.
Proof.
  induction s as [s IH] using string_len_ind. destruct s as [|a r]; [done|].
  cbn [rstrip].
  assert (String.length (rstrip r) <= String.length r) as Hr by (apply IH; cbn; lia).
  destruct (space1 a).
  { destruct (rstrip r); cbn in *; lia. }
  destruct r as [|b r1]; [cbn; lia|].
  assert (String.length (rstrip r1) <= String.length r1) as Hr1 by (apply IH; cbn; lia).
  destruct (space2 a b).
  { destruct (rstrip r1); cbn in *; lia. }
  destruct r1 as [|c r2]; [cbn in *; lia|].
  assert (String.length (rstrip r2) <= String.length r2) as Hr2 by (apply IH; cbn; lia).
  destruct (space3 a b c).
  { destruct (rstrip r2); cbn in *; lia. }
  cbn [String.length] in *. lia.
Qed.

Lemma lstrip_length (s : string) : String.length (lstrip s) <= String.length s.
Proof.
  induction s as [s IH] using string_len_ind. destruct s as [|a r]; [done|].
  cbn [lstrip].
  destruct (space1 a).
  { etrans; [apply IH; cbn; lia|cbn; lia]. }
  destruct r as [|b r1]; [done|].
  destruct (space2 a b).
  { etrans; [apply IH; cbn; lia|cbn; lia]. }
  destruct r1 as [|c r2]; [done|].
  destruct (space3 a b c); [|done].
  etrans; [apply IH; cbn; lia|cbn; lia].
Qed.

(** [lstrip] returns its argument or a shorter string. *)
Lemma lstrip_same_or_shorter (s : string) :
  lstrip s = s \/ String.length (lstrip s) < String.length s.
Proof.
  destruct s as [|a r]; [by left|]. cbn [lstrip].
  destruct (space1 a).
  { right. pose proof (lstrip_length r). cbn. lia. }
  destruct r as [|b r1]; [by left|].
  destruct (space2 a b).
  { right. pose proof (lstrip_length r1). cbn. lia. }
  destruct r1 as [|c r2]; [by left|].
  destruct (space3 a b c); [|by left].
  right. pose proof (lstrip_length r2). cbn. lia.
Qed.

Lemma space2_lf a : space2 a LF = false.
Proof. unfold space2. by rewrite andb_false_r. Qed.

Lemma space3_lf_mid a c : space3 a LF c = false.
Proof.
  unfold space3. change (byte_is 154 LF) with false. change (byte_is 128 LF) with false.
  change (byte_is 129 LF) with false. by rewrite !andb_false_r.
Qed.

Lemma space3_lf_end a b : space3 a b LF = false.
Proof.
  unfold space3. change (byte_is 128 LF) with false. change (byte_is 159 LF) with false.
  change (between 128 138 LF) with false. change (between 168 169 LF) with false.
  change (byte_is 175 LF) with false. by rewrite !andb_false_r.
Qed.

(** A final line feed is stripped with the white space before it. *)
Lemma rstrip_final_lf (x : string) :
  rstrip (x +:+ String LF EmptyString) = rstrip x.
Proof.
  induction x as [x IH] using string_len_ind. destruct x as [|a r]; [reflexivity|].
  rewrite app_cons. cbn [rstrip].
  assert (rstrip (r +:+ String LF EmptyString) = rstrip r) as Hr by (apply IH; cbn; lia).
  destruct (space1 a); [by rewrite Hr|].
  destruct r as [|b r1].
  { rewrite app_empty_l. by rewrite space2_lf. }
  rewrite app_cons in *.
  assert (rstrip (r1 +:+ String LF EmptyString) = rstrip r1) as Hr1
    by (apply IH; cbn; lia).
  destruct (space2 a b); [by rewrite Hr1|].
  destruct r1 as [|c r2].
  { rewrite app_empty_l in *. rewrite space3_lf_end. by rewrite Hr. }
  rewrite app_cons in *.
  destruct (space3 a b c); [|by rewrite Hr].
  by rewrite (IH r2) by (cbn; lia).
Qed.

(** A stripped text does not end with a line feed. *)
Lemma bare_no_final_lf (x : string) : ~ bare (x +:+ String LF EmptyString).
Proof.
  unfold bare, strip. intros H.
  destruct (lstrip_same_or_shorter (x +:+ String LF EmptyString)) as [Hl|Hl].
  - rewrite Hl, rstrip_final_lf in H. apply (f_equal String.length) in H.
    pose proof (rstrip_length x). rewrite length_app_str in H. cbn in H. lia.
  - apply (f_equal String.length) in H.
    pose proof (rstrip_length (lstrip (x +:+ String LF EmptyString))). lia.
Qed.

(** A text that [split] returns whole and that does not end with a line
    feed, followed by a blank line, is the first piece of the split. *)
Lemma split_blank_go_piece (s cur rest : string) :
  split_blank_go cur s = [cur +:+ s] ->
  (forall x, s ≠ x +:+ String LF EmptyString) ->
  split_blank_go cur (s +:+ String LF (String LF rest))
  = (cur +:+ s) :: split_blank_go EmptyString rest.
Proof.
  revert cur. induction s as [|c s IH]; intros cur H Hlf.
  { by rewrite app_empty_r. }
  assert (forall x, s ≠ x +:+ String LF EmptyString) as Hlf'.
  { intros x ->. by apply (Hlf (String c x)). }
  rewrite app_cons. cbn [split_blank_go] in *.
  rewrite <- (snoc_app cur c s) in *.
  destruct (byte_is 10 c) eqn:Hc; [|by apply IH].
  destruct s as [|b s1].
  { exfalso. apply (Hlf EmptyString). rewrite app_empty_l. f_equal.
    unfold byte_is, code in Hc. apply N.eqb_eq in Hc.
    rewrite <- (ascii_N_embedding c), Hc. reflexivity. }
  rewrite app_cons. destruct (byte_is 10 b).
  { exfalso. injection H as H _. rewrite snoc_app in H.
    by apply (app_not_self cur (String c (String b s1))). }
  rewrite <- app_cons. by apply IH.
Qed.

Lemma split_blank_join (segs : list string) :
  segs ≠ [] ->
  Forall (fun s => split_blank s = [s] /\ forall x, s ≠ x +:+ String LF EmptyString) segs ->
  split_blank (join_blank segs) = segs.
Proof.
  intros Hne H. induction H as [|s segs [Hs Hlf] Hrest IH]; [done|].
  destruct segs as [|s2 segs]; [exact Hs|].
  unfold join_blank in *. cbn [String.concat].
  change (String LF (String LF EmptyString) +:+ ?t) with (String LF (String LF t)).
  unfold split_blank. rewrite (split_blank_go_piece s EmptyString) by done.
  rewrite app_empty_l. f_equal. by apply IH.
Qed.

End StripFacts.

(** ** Suffixes and the walk *)
Section WalkFacts.









End WalkFacts.

(** ** The set a file of lines stands for *)
Lemma one_line_nonempty p : one_line p -> p ≠ EmptyString.
Proof. intros [H _] ->. discriminate H. Qed.

Lemma lines_read (lines : list string) (tail : string) :
  Forall one_line lines -> tail = EmptyString \/ one_line tail ->
  Py.utf8_valid (lines_text lines +:+ tail) = true
  /\ Py.splitlines (Py.universal_newlines (lines_text lines +:+ tail))
     = lines ++ Py.splitlines tail.
Proof.
  intros Hl Ht.
  assert (Forall (fun p => Py.splitlines p = [p]) lines) as Hs
    by (eapply Forall_impl; [exact Hl|]; by intros p [? _]).
  split.
  - apply utf8_valid_lines.
    + eapply Forall_impl; [exact Hl|]. by intros p [_ ?].
    + destruct Ht as [->|[_ ?]]; done.
  - rewrite universal_newlines_lines_text by done.
    assert (Py.universal_newlines tail = tail) as ->.
    { destruct Ht as [->|[? _]]; [done|by apply universal_newlines_line]. }
    by apply splitlines_lines_text.
Qed.

Lemma stored_lines (lines : list string) (tail : string) :
  Forall (fun p => one_line p /\ bare p) lines ->
  tail = EmptyString \/ (one_line tail /\ bare tail) ->
  V2Spec.stored (lines_text lines +:+ tail)
  = list_to_set (lines ++ Py.splitlines tail).
Proof.
  intros Hl Ht. unfold V2Spec.stored.
  destruct (lines_read lines tail) as [_ ->].
  { eapply Forall_impl; [exact Hl|]. by intros p [? _]. }
  { destruct Ht as [?|[? _]]; auto. }
  f_equal.
  assert (Forall (fun p => one_line p /\ bare p) (lines ++ Py.splitlines tail)) as Hall.
  { apply Forall_app. split; [done|].
    destruct Ht as [->|[[Hs Hv] Hb]]; [constructor|].
    rewrite Hs. by repeat constructor. }
  induction Hall as [|p l [Hp Hb] _ IH]; [done|].
  cbn [map]. rewrite Hb, filter_cons, decide_True by (by apply one_line_nonempty).
  by rewrite IH.
Qed.


(** ** One iteration of [transcribe_mp3_v2] *)
Section V2Step.
Import V2 V2Spec.
Variable E : env.
Variable C : config.

Ltac unfold_m :=
  unfold visit, attempt, on_error, save_txt, save_docx, save_pdf,
    transcribe, safe_log_append, ensure_parent_dir, external_write, clock,
    try_except, exists_, get_locals, set_locals, set_fs, next_tick, note, raise,
    mbind, M_bind, mret, M_ret.
Ltac red_m := cbn beta iota zeta delta [fst snd fs tick trace locals negb].

Lemma visit_not_candidate d f st :
  ~ candidate E C f -> visit E C d f st = (Ok tt, st).
Proof.
  unfold candidate, visit. intros H.
  destruct (has_ext E (lower E) (exts C) f); [congruence|reflexivity].
Qed.

Lemma visit_processed d f st :
  candidate E C f -> full E d f ∈ processed (locals st) ->
  visit E C d f st =
  (Ok tt, St (fs st) (tick st) (trace st)
             (incr_skipped_processed (incr_total (locals st)))).
Proof.
  unfold candidate, full. intros Hc Hin. unfold_m. rewrite Hc. red_m.
  destruct (decide _) as [|Hn]; [reflexivity|]. by destruct Hn.
Qed.

Lemma materialized_bool disk d f :
  (bool_decide (is_Some (disk !! artifact d (fst (Py.splitext f)) ".txt"))
   && bool_decide (is_Some (disk !! artifact d (fst (Py.splitext f)) ".docx"))
   && bool_decide (is_Some (disk !! artifact d (fst (Py.splitext f)) ".pdf")))%bool
  = true <-> materialized disk d f.
Proof.
  unfold materialized, outputs. rewrite !andb_true_iff, !bool_decide_eq_true.
  rewrite !Forall_cons. split; [intros [[? ?] ?]|intros (?&?&?&_)]; auto using Forall_nil.
Qed.

Lemma visit_existing d f st :
  candidate E C f -> full E d f ∉ processed (locals st) ->
  materialized (fs st) d f ->
  visit E C d f st =
  (Ok tt, St (append_file (processed_list_abs C)
                          (full E d f +:+ String Py.LF EmptyString) (fs st))
             (tick st) (trace st)
             (incr_skipped_existing
                (add_processed (full E d f) (incr_total (locals st))))).
Proof.
  unfold candidate, full. intros Hc Hin Hm. apply materialized_bool in Hm.
  unfold_m. rewrite Hc. red_m.
  destruct (decide _) as [Hy|_]; [by destruct Hin|].
  red_m. rewrite Hm. reflexivity.
Qed.

Lemma visit_eligible d f st :
  candidate E C f -> full E d f ∉ processed (locals st) ->
  ~ materialized (fs st) d f ->
  visit E C d f st =
  try_except
    (attempt E C (full E d f) (artifact d (fst (Py.splitext f)) ".txt")
             (artifact d (fst (Py.splitext f)) ".docx")
             (artifact d (fst (Py.splitext f)) ".pdf"))
    (on_error E C (full E d f))
    (St (fs st) (tick st) (trace st) (incr_total (locals st))).
Proof.
  unfold candidate, full. intros Hc Hin Hm. rewrite <- materialized_bool in Hm.
  apply not_true_is_false in Hm.
  unfold visit. rewrite Hc.
  unfold exists_, get_locals, set_locals, mbind, M_bind. red_m.
  destruct (decide _) as [Hy|_]; [by destruct Hin|].
  red_m. rewrite Hm. reflexivity.
Qed.

Ltac raise_case :=
  eexists; split; [reflexivity|];
  split; [reflexivity|];
  split; [reflexivity|];
  split; [intros q Hq; rewrite ?lookup_insert_ne; [reflexivity|set_solver..]|];
  split; [intros q Hq; rewrite ?lookup_insert_is_Some'; auto|];
  eexists; split; [rewrite <- ?app_assoc; reflexivity|
                   repeat (constructor; [split; [reflexivity|discriminate]|]);
                   constructor].

(** An attempt ends well exactly when Whisper and the writers do; when it
    raises, the local variables are as before, only the three outputs may
    have changed on the disk, and no file was removed. *)
Lemma attempt_spec p a b c (st : state vars) :
  match attempt E C p a b c st with
  | (Ok _, st') =>
      exists r, whisper E (S (tick st)) p = Ok r
                /\ failure E (tick st) p a b c = None
                /\ st' = success_state E C p a b c r st
  | (Raise e, st') =>
      exists t, failure E (tick st) p a b c = Some (e, t)
      /\ tick st' = t
      /\ locals st' = locals st
      /\ (forall q, q ∉ [a; b; c] -> fs st' !! q = fs st !! q)
      /\ keeps_files (fs st) (fs st')
      /\ exists new, trace st' = trace st ++ (p, Transcribe) :: new
                     /\ Forall (fun x => fst x = p /\ snd x ≠ Transcribe) new
  end.
Proof.
  unfold_m. red_m. unfold failure, keeps_files.
  destruct (whisper E (S (tick st)) p) as [r|e] eqn:Hw; red_m; [|raise_case].
  destruct (txt_fault E (S (S (tick st))) a) as [[e [part|]]|] eqn:Ht; red_m;
    [raise_case..|].
  destruct (docx_fault E (S (S (S (tick st)))) b) as [[e [part|]]|] eqn:Hd; red_m;
    [raise_case..|].
  destruct (pdf_fault E (S (S (S (S (tick st))))) c) as [[e [part|]]|] eqn:Hp; red_m;
    [raise_case..|].
  exists r. split; [done|]. split; [done|].
  unfold success_state. red_m. f_equal.
  - by replace (tick st + 6) with (S (S (S (S (S (S (tick st))))))) by lia;
      replace (tick st + 5) with (S (S (S (S (S (tick st)))))) by lia.
  - lia.
  - by rewrite <- !app_assoc.
Qed.

(** Every iteration returns, in one of the five ways. *)
Lemma visit_visited d f (st : state vars) :
  exists k st', visit E C d f st = (Ok tt, st') /\ visited E C d f st k st'.
Proof.
  destruct (has_ext E (lower E) (exts C) f) eqn:Hc.
  2:{ exists NotCandidate, st. split.
      - apply visit_not_candidate. unfold candidate. congruence.
      - constructor. unfold candidate. congruence. }
  destruct (decide (full E d f ∈ processed (locals st))) as [Hin|Hin].
  { eexists SkippedProcessed, _. split; [by apply visit_processed|by constructor]. }
  destruct (decide (materialized (fs st) d f)) as [Hm|Hm].
  { eexists SkippedExisting, _. split; [by apply visit_existing|by constructor]. }
  rewrite (visit_eligible d f st Hc Hin Hm). unfold try_except.
  pose proof (attempt_spec (full E d f) (artifact d (fst (Py.splitext f)) ".txt")
    (artifact d (fst (Py.splitext f)) ".docx")
    (artifact d (fst (Py.splitext f)) ".pdf")
    (St (fs st) (tick st) (trace st) (incr_total (locals st)))) as Ha.
  destruct (attempt _ _ _ _ _ _ _) as [[[]|e] st1].
  - destruct Ha as (r & Hw & Hs & ->). eexists Succeeded, _. split; [reflexivity|].
    by apply visited_succeeded.
  - destruct Ha as (t & Hs & Ht & Hl & Hfr & Hk & new & Htr & Hnew).
    cbn [fs tick trace locals] in *.
    eexists Failed, _. split.
    + unfold on_error, clock, next_tick, safe_log_append, ensure_parent_dir,
        set_fs, set_locals, mbind, M_bind, mret, M_ret.
      cbn beta iota zeta delta [fst snd fs tick trace locals].
      rewrite Hl, Htr, Ht. reflexivity.
    + by apply visited_failed.
Qed.

Lemma visit_ok d f (st : state vars) : fst (visit E C d f st) = Ok tt.
Proof. destruct (visit_visited d f st) as (k & st' & -> & _). reflexivity. Qed.

Lemma step_visited x (st : state vars) :
  exists k, visited E C (fst x) (snd x) st k (step E C st x).
Proof.
  unfold step. destruct (visit_visited (fst x) (snd x) st) as (k & st' & -> & H).
  by exists k.
Qed.

End V2Step.

(** ** Files that only grow *)
Section DiskFacts.

Lemma lines_text_app (l1 l2 : list string) :
  lines_text (l1 ++ l2) = lines_text l1 +:+ lines_text l2.
Proof.
  unfold lines_text. induction l1 as [|m l1 IH]; [reflexivity|].
  cbn [app fold_right]. by rewrite IH, !app_assoc_str.
Qed.

Lemma content_insert_eq d p v : content (<[p:=v]> d) p = v.
Proof. unfold content. by rewrite lookup_insert_eq. Qed.

Lemma content_insert_ne d p q v : p ≠ q -> content (<[p:=v]> d) q = content d q.
Proof. intros. unfold content. by rewrite lookup_insert_ne. Qed.

Lemma content_append_eq d p text :
  content (append_file p text d) p = content d p +:+ text.
Proof. unfold append_file. by rewrite content_insert_eq. Qed.

Lemma content_append_ne d p q text :
  p ≠ q -> content (append_file p text d) q = content d q.
Proof. intros. unfold append_file. by rewrite content_insert_ne. Qed.

Lemma lookup_append_ne d p q text :
  p ≠ q -> append_file p text d !! q = d !! q.
Proof. intros. unfold append_file. by rewrite lookup_insert_ne. Qed.

Lemma appended_refl d p : appended d d p.
Proof. exists []. by rewrite app_empty_r. Qed.

Lemma appended_trans d1 d2 d3 p :
  appended d1 d2 p -> appended d2 d3 p -> appended d1 d3 p.
Proof.
  intros [l1 H1] [l2 H2]. exists (l1 ++ l2).
  by rewrite H2, H1, lines_text_app, app_assoc_str.
Qed.

Lemma appended_same d d' p : d' !! p = d !! p -> appended d d' p.
Proof. intros H. exists []. unfold content. by rewrite H, app_empty_r. Qed.

Lemma appended_append_file d p q m :
  appended d (append_file p (m +:+ String Py.LF EmptyString) d) q.
Proof.
  destruct (decide (p = q)) as [->|Hne].
  - exists [m]. rewrite content_append_eq. cbn [lines_text fold_right].
    by rewrite app_empty_r.
  - apply appended_same. by apply lookup_append_ne.
Qed.



Lemma keeps_files_insert d p v : keeps_files d (<[p:=v]> d).
Proof. intros q Hq. rewrite lookup_insert_is_Some'. auto. Qed.

Lemma keeps_files_append d p text : keeps_files d (append_file p text d).
Proof. apply keeps_files_insert. Qed.

Lemma is_Some_append d p text : is_Some (append_file p text d !! p).
Proof. unfold append_file. rewrite lookup_insert_eq. eauto. Qed.

End DiskFacts.

(** ** What one iteration of [transcribe_mp3_v2] preserves *)
Section V2Frame.
Import V2 V2Spec.
Variable E : env.
Variable C : config.

Lemma visited_balanced d f st k st' :
  visited E C d f st k st' -> balanced (locals st) -> balanced (locals st').
Proof. unfold balanced. destruct 1; cbn; lia. Qed.




(** Outside the three outputs of the file, an iteration only appends lines. *)
Lemma visited_appended d f st k st' q :
  visited E C d f st k st' -> q ∉ outputs d f -> appended (fs st) (fs st') q.
Proof.
  destruct 1; intros Hq; cbn [fs success_state]; try apply appended_refl.
  - apply appended_append_file.
  - eapply appended_trans; [|apply appended_append_file].
    eapply appended_trans; [|apply appended_append_file].
    apply appended_same. unfold outputs in Hq.
    rewrite !lookup_insert_ne; [done|set_solver..].
  - eapply appended_trans; [|apply appended_append_file].
    apply appended_same. auto.
Qed.

(** Outside the outputs and the three logs, an iteration changes nothing. *)
Lemma visited_frame d f st k st' q :
  visited E C d f st k st' -> q ∉ outputs d f ->
  q ∉ [log_success_abs C; log_error_abs C; processed_list_abs C] ->
  fs st' !! q = fs st !! q.
Proof.
  destruct 1; intros Hq Hl; cbn [fs success_state]; try reflexivity.
  - rewrite lookup_append_ne; [done|set_solver].
  - rewrite !lookup_append_ne by set_solver. unfold outputs in Hq.
    rewrite !lookup_insert_ne; [done|set_solver..].
  - rewrite lookup_append_ne by set_solver. auto.
Qed.

Lemma visited_trace d f st k st' :
  visited E C d f st k st' ->
  exists new, trace st' = trace st ++ new
              /\ Forall (fun x => fst x = full E d f) new
              /\ (new = [] <-> k ≠ Succeeded /\ k ≠ Failed).
Proof.
  destruct 1; cbn [trace success_state].
  1,2,3: exists []; rewrite app_nil_r; split; [done|split; [constructor|]]; split; done.
  - eexists; split; [reflexivity|]. split; [repeat constructor|].
    split; [discriminate|intros [? ?]; congruence].
  - eexists; split; [reflexivity|].
    split; [constructor; [reflexivity|]; eapply Forall_impl; [eassumption|];
            by intros ? [? _]|].
    split; [discriminate|intros [? ?]; congruence].
Qed.

End V2Frame.

(** ** A whole run of [transcribe_mp3_v2] *)
Section V2Run.
Import V2 V2Spec.
Variable E : env.
Variable C : config.

Lemma visit_all_steps dirs (st : state vars) :
  visit_all E C dirs st = (Ok tt, steps E C (pairs dirs) st).
Proof.
  unfold visit_all, steps, pairs. revert st.
  induction dirs as [|[d files] dirs IH]; intros st; [reflexivity|].
  cbn [for_each flat_map fst snd]. unfold mbind, M_bind.
  rewrite for_each_total by (intros; apply visit_ok).
  rewrite IH, fold_left_app. f_equal. f_equal.
  clear. revert st. induction files as [|f files IH]; intros st; [reflexivity|].
  apply IH.
Qed.

Lemma load_processed_set_spec path (st : state vars) :
  load_processed_set path st =
  match fs st !! path with
  | Some bytes =>
      if Py.utf8_valid bytes then (Ok (stored bytes), st)
      else (Raise "UnicodeDecodeError", st)
  | None => (Ok ∅, st)
  end.
Proof.
  unfold load_processed_set, exists_, read_text, mbind, M_bind, mret, M_ret.
  destruct (fs st !! path) as [bytes|] eqn:Hb.
  - rewrite bool_decide_eq_true_2 by eauto. rewrite Hb.
    by destruct (Py.utf8_valid bytes).
  - rewrite bool_decide_eq_false_2; [done|]. by intros [? ?].
Qed.

(** The run is the loading of the set, then the iterations in the order of
    the walk; when loading raises, nothing else happens. *)
Lemma transcribe_folder_spec t (st : state vars) :
  transcribe_folder E C t st =
  match load_processed_set (processed_list_abs C) st with
  | (Ok known, _) =>
      (Ok tt, steps E C (pairs (walk (root_folder C) t)) (entry E known st))
  | (Raise e, _) => (Raise e, st)
  end.
Proof.
  unfold transcribe_folder, ensure_parent_dir.
  unfold mbind at 1 2 3 4, M_bind, mret, M_ret.
  rewrite load_processed_set_spec.
  destruct (fs st !! processed_list_abs C) as [bytes|];
    [destruct (Py.utf8_valid bytes)|]; try reflexivity.
  all: unfold register_pdf_font, set_locals, mbind, M_bind;
    cbn beta iota zeta delta [fst snd fs tick trace locals];
    unfold entry, chosen_font;
    destruct (filter _ font_candidates); cbn beta iota; apply visit_all_steps.
Qed.

(** Induction over the iterations of a run. *)
Lemma steps_invariant (P : state vars -> Prop) l st :
  P st -> (forall s x, x ∈ l -> P s -> P (step E C s x)) -> P (steps E C l st).
Proof.
  unfold steps. revert st. induction l as [|x l IH]; intros st H0 Hs; [done|].
  cbn [fold_left]. apply IH.
  - apply Hs; [left|done].
  - intros s y Hy. apply Hs. by right.
Qed.


Lemma steps_cons x l st : steps E C (x :: l) st = steps E C l (step E C st x).
Proof. reflexivity. Qed.

Lemma step_balanced s x : balanced (locals s) -> balanced (locals (step E C s x)).
Proof. destruct (step_visited E C x s) as [k H]. eapply visited_balanced, H. Qed.

Lemma steps_balanced l st :
  balanced (locals st) -> balanced (locals (steps E C l st)).
Proof.
  intros H. apply (steps_invariant (fun s => balanced (locals s))); [done|].
  intros s x _. apply step_balanced.
Qed.

Lemma step_total s x :
  total (locals (step E C s x)) =
  total (locals s) + (if has_ext E (lower E) (exts C) (snd x) then 1 else 0).
Proof.
  destruct (step_visited E C x s) as [k H]. unfold candidate in H.
  destruct H as [Hc|Hc|Hc|r Hc|? ? ? ? Hc]; cbn [locals success_state total
    incr_total incr_succeeded incr_failed incr_skipped_processed
    incr_skipped_existing add_processed].
  1: apply not_true_is_false in Hc.
  all: rewrite Hc; lia.
Qed.

Lemma steps_total l st :
  total (locals (steps E C l st)) =
  total (locals st)
  + length (filter (fun x => candidate E C (snd x)) l).
Proof.
  revert st. induction l as [|x l IH]; intros st; [cbn; lia|].
  rewrite steps_cons, IH, step_total, filter_cons.
  destruct (decide (candidate E C (snd x))) as [Hc|Hc]; unfold candidate in Hc.
  - rewrite Hc. cbn [length]. lia.
  - apply not_true_is_false in Hc. rewrite Hc. lia.
Qed.

End V2Run.

(** ** Eligible files, failures and the trace *)
Section V2More.
Import V2 V2Spec.
Variable E : env.
Variable C : config.

(** An eligible file whose attempt fails: the iteration returns all the
    same, with the error line appended and nothing recorded. *)
Lemma visit_failure d f (st : state vars) e t :
  eligible E C st d f -> fails E st d f = Some (e, t) ->
  exists disk new,
    visit E C d f st =
    (Ok tt,
     St (append_file (log_error_abs C)
                     (error_line E t (full E d f) e +:+ String Py.LF EmptyString)
                     disk)
        (S t) (trace st ++ (full E d f, Transcribe) :: new)
        (incr_failed (incr_total (locals st))))
    /\ (forall q, q ∉ outputs d f -> disk !! q = fs st !! q)
    /\ keeps_files (fs st) disk
    /\ Forall (fun x => fst x = full E d f /\ snd x ≠ Transcribe) new.
Proof.
  intros (Hc & Hin & Hm) Hf. unfold fails in Hf.
  destruct (visit_visited E C d f st) as (k & st' & Hv & H).
  destruct H as [Hc'|_ Hin'|_ _ Hm'|r _ _ _ _ Hs|e' disk t' new _ _ _ Hf' Hfr Hk Hnew];
    try contradiction; try congruence.
  rewrite Hf in Hf'. injection Hf' as <- <-. eauto 10.
Qed.

(** An eligible file whose attempt does not fail. *)
Lemma visit_success d f (st : state vars) :
  eligible E C st d f -> fails E st d f = None ->
  exists r,
    whisper E (S (tick st)) (full E d f) = Ok r
    /\ visit E C d f st =
       (Ok tt,
        success_state E C (full E d f) (artifact d (fst (Py.splitext f)) ".txt")
          (artifact d (fst (Py.splitext f)) ".docx")
          (artifact d (fst (Py.splitext f)) ".pdf") r
          (St (fs st) (tick st) (trace st) (incr_total (locals st)))).
Proof.
  intros (Hc & Hin & Hm) Hf. unfold fails in Hf.
  destruct (visit_visited E C d f st) as (k & st' & Hv & H).
  destruct H as [Hc'|_ Hin'|_ _ Hm'|r _ _ _ Hw Hs|e' disk t' new _ _ _ Hf' Hfr Hk Hnew];
    try contradiction; try congruence.
  eauto.
Qed.



(** The iteration of an eligible file calls Whisper for it. *)
Lemma step_eligible_transcribes d f s :
  eligible E C s d f ->
  exists new, trace (step E C s (d, f)) = trace s ++ (full E d f, Transcribe) :: new.
Proof.
  intros He. unfold step. cbn [fst snd].
  destruct (fails E s d f) as [[e t]|] eqn:Hf.
  - destruct (visit_failure d f s e t He Hf) as (disk & new & -> & _). cbn. eauto.
  - destruct (visit_success d f s He Hf) as (r & _ & ->). cbn. eauto.
Qed.


End V2More.

(** ** Invariants of a run of [transcribe_mp3_v2] *)
Section V2Invariants.
Import V2 V2Spec.
Variable E : env.
Variable C : config.

Lemma calls_for_app p (a b : list (string * call)) :
  calls_for p (a ++ b) = calls_for p a ++ calls_for p b.
Proof. unfold calls_for. by rewrite filter_app, map_app. Qed.











(** While its three outputs exist, no call is made for a path. *)
Lemma step_materialized_quiet s d f x :
  full E (fst x) (snd x) = full E d f -> materialized (fs s) (fst x) (snd x) ->
  calls_for (full E d f) (trace (step E C s x)) = calls_for (full E d f) (trace s).
Proof.
  intros Heq Hm. destruct (step_visited E C x s) as [k Hv].
  destruct (visited_trace _ _ _ _ _ _ _ Hv) as (new & -> & Hnew & Hk).
  rewrite calls_for_app.
  assert (new = []) as ->; [|by rewrite app_nil_r].
  apply Hk. destruct Hv; done.
Qed.

(** Outside the outputs of the files of the walk, a run only appends. *)
Lemma steps_appended l s q :
  (forall x, x ∈ l -> candidate E C (snd x) -> q ∉ outputs (fst x) (snd x)) ->
  appended (fs s) (fs (steps E C l s)) q.
Proof.
  intros Hq.
  apply (steps_invariant E C (fun s' => appended (fs s) (fs s') q)).
  - apply appended_refl.
  - intros s' x Hx H. eapply appended_trans; [exact H|].
    destruct (step_visited E C x s') as [k Hv].
    destruct (decide (candidate E C (snd x))) as [Hc|Hc].
    + eapply visited_appended; [exact Hv|]. by apply Hq.
    + destruct Hv; try contradiction. apply appended_refl.
Qed.

End V2Invariants.

(** ** Counting the calls of a run of [transcribe_mp3_v2] *)
Section V2Count.
Import V2 V2Spec.
Variable E : env.
Variable C : config.






End V2Count.

(** ** One iteration and a whole run of [transcribe_audio_cuda] *)
Section CudaFacts.
Import Cuda CudaSpec.
Variable E : env.
Variable root : string.

Ltac unfold_m :=
  unfold attempt, on_error, save_txt, save_docx, save_pdf,
    transcribe, log_write, external_write, clock,
    try_except, exists_, get_locals, set_locals, set_fs, next_tick, note, raise,
    mbind, M_bind, mret, M_ret.
Ltac red_m := cbn beta iota zeta delta [fst snd fs tick trace locals negb].

Ltac raise_case :=
  eexists; split; [reflexivity|];
  split; [reflexivity|];
  split; [reflexivity|];
  split; [intros q Hq; rewrite ?lookup_insert_ne; [reflexivity|set_solver..]|];
  split; [intros q Hq; rewrite ?lookup_insert_is_Some'; auto|];
  eexists; split; [rewrite <- ?app_assoc; reflexivity|
                   repeat (constructor; [split; [reflexivity|discriminate]|]);
                   constructor].

Lemma cuda_attempt_spec p a b c (st : state vars) :
  is_Some (fs st !! p) ->
  match attempt E root p a b c st with
  | (Ok _, st') =>
      exists r, whisper E (S (tick st)) p = Ok r
                /\ failure E (tick st) p a b c = None
                /\ st' =
                   St (append_file (PROCESSED_LIST root) (p +:+ String Py.LF EmptyString)
                        (append_file (LOG_SUCCESS root)
                           ((now_text E (tick st + 6) +:+ " | SUCCESS | " +:+ p
                               +:+ " | " +:+ elapsed_text E (tick st) (tick st + 5)
                               +:+ " sec") +:+ String Py.LF EmptyString)
                           (<[c := pdf_bytes E (PDF_FONT (locals st))
                                     (pdf_paragraphs (Py.strip (default EmptyString r)))]>
                              (<[b := docx_bytes E
                                        (docx_paragraphs (Py.strip (default EmptyString r)))]>
                                 (<[a := Py.strip (default EmptyString r)]> (fs st))))))
                      (tick st + 7)
                      (trace st ++ [(p, Transcribe); (p, SaveTxt); (p, SaveDocx);
                                    (p, SavePdf)])
                      (locals st)
  | (Raise e, st') =>
      exists t, failure E (tick st) p a b c = Some (e, t)
      /\ tick st' = t
      /\ locals st' = locals st
      /\ (forall q, q ∉ [a; b; c] -> fs st' !! q = fs st !! q)
      /\ keeps_files (fs st) (fs st')
      /\ exists new, trace st' = trace st ++ (p, Transcribe) :: new
                     /\ Forall (fun x => fst x = p /\ snd x ≠ Transcribe) new
  end.
Proof.
  intros Hp. unfold_m. red_m. rewrite bool_decide_eq_true_2 by done. red_m.
  unfold failure, keeps_files.
  destruct (whisper E (S (tick st)) p) as [r|e] eqn:Hw; red_m; [|raise_case].
  destruct (txt_fault E (S (S (tick st))) a) as [[e [part|]]|] eqn:Ht; red_m;
    [raise_case..|].
  destruct (docx_fault E (S (S (S (tick st)))) b) as [[e [part|]]|] eqn:Hd; red_m;
    [raise_case..|].
  destruct (pdf_fault E (S (S (S (S (tick st))))) c) as [[e [part|]]|] eqn:Hf; red_m;
    [raise_case..|].
  exists r. split; [done|]. split; [done|]. f_equal.
  - by replace (tick st + 6) with (S (S (S (S (S (S (tick st))))))) by lia;
      replace (tick st + 5) with (S (S (S (S (S (tick st)))))) by lia.
  - lia.
  - by rewrite <- !app_assoc.
Qed.

Lemma cuda_materialized_bool disk p :
  (bool_decide (is_Some (disk !! artifact (Py.dirname p) (base_of p) ".txt"))
   && bool_decide (is_Some (disk !! artifact (Py.dirname p) (base_of p) ".docx"))
   && bool_decide (is_Some (disk !! artifact (Py.dirname p) (base_of p) ".pdf")))%bool
  = true <-> materialized disk p.
Proof.
  unfold materialized, outputs. rewrite !andb_true_iff, !bool_decide_eq_true.
  rewrite !Forall_cons. split; [intros [[? ?] ?]|intros (?&?&?&_)]; auto using Forall_nil.
Qed.

Lemma cuda_skipped_bool (st : state vars) p :
  (bool_decide (p ∈ processed (locals st))
   || (bool_decide (is_Some (fs st !! artifact (Py.dirname p) (base_of p) ".txt"))
       && bool_decide (is_Some (fs st !! artifact (Py.dirname p) (base_of p) ".docx"))
       && bool_decide (is_Some (fs st !! artifact (Py.dirname p) (base_of p) ".pdf"))))%bool
  = true <-> skipped st p.
Proof.
  unfold skipped. rewrite orb_true_iff, bool_decide_eq_true, cuda_materialized_bool.
  reflexivity.
Qed.

Lemma cuda_visit_skipped p (st : state vars) :
  skipped st p -> visit E root p st = (Ok tt, st).
Proof.
  intros Hs. apply cuda_skipped_bool in Hs. unfold visit.
  unfold exists_, get_locals, mbind, M_bind, mret, M_ret. red_m.
  fold (base_of p). rewrite Hs. reflexivity.
Qed.

Lemma cuda_visit_attempt p (st : state vars) :
  ~ skipped st p ->
  visit E root p st =
  try_except (attempt E root p (artifact (Py.dirname p) (base_of p) ".txt")
                (artifact (Py.dirname p) (base_of p) ".docx")
                (artifact (Py.dirname p) (base_of p) ".pdf"))
             (on_error E root p) st.
Proof.
  intros Hs. rewrite <- cuda_skipped_bool in Hs. apply not_true_is_false in Hs.
  unfold visit. unfold exists_, get_locals, mbind, M_bind, mret, M_ret. red_m.
  fold (base_of p). rewrite Hs. by destruct st.
Qed.

(** Every iteration returns, in one of the four ways. *)
Lemma cuda_visit_visited p (st : state vars) :
  exists k st', visit E root p st = (Ok tt, st') /\ visited E root p st k st'.
Proof.
  destruct (decide (skipped st p)) as [Hs|Hs].
  { exists Skipped, st. split; [by apply cuda_visit_skipped|by constructor]. }
  rewrite (cuda_visit_attempt p st Hs). unfold try_except.
  destruct (fs st !! p) as [bytes|] eqn:Hp.
  - pose proof (cuda_attempt_spec p (artifact (Py.dirname p) (base_of p) ".txt")
      (artifact (Py.dirname p) (base_of p) ".docx")
      (artifact (Py.dirname p) (base_of p) ".pdf") st) as Ha.
    destruct (attempt _ _ _ _ _ _ _) as [[[]|e] st1].
    + destruct Ha as (r & Hw & Hf & ->); [eauto|].
      eexists Succeeded, _. split; [reflexivity|].
      apply (visited_succeeded E root p st r); eauto.
    + destruct Ha as (t & Hf & Ht & Hl & Hfr & Hk & new & Htr & Hnew); [eauto|].
      eexists Failed, _. split.
      * unfold on_error, clock, next_tick, log_write, set_fs, mbind, M_bind.
        red_m. rewrite Hl, Htr, Ht. reflexivity.
      * apply visited_failed; eauto.
  - eexists Missing, _. split; [|by apply visited_missing].
    unfold attempt, exists_, clock, next_tick, log_write, set_fs, mbind, M_bind.
    red_m. rewrite Hp. rewrite bool_decide_eq_false_2 by (by intros [? ?]).
    reflexivity.
Qed.

Lemma cuda_visit_ok p (st : state vars) : fst (visit E root p st) = Ok tt.
Proof. destruct (cuda_visit_visited p st) as (k & st' & -> & _). reflexivity. Qed.

Lemma cuda_step_visited p (st : state vars) :
  exists k, visited E root p st k (step E root st p).
Proof.
  unfold step. destruct (cuda_visit_visited p st) as (k & st' & -> & H). by exists k.
Qed.

Lemma cuda_load_processed_files_spec (st : state vars) :
  load_processed_files root st =
  match fs st !! PROCESSED_LIST root with
  | Some bytes =>
      if Py.utf8_valid bytes then (Ok (stored bytes), st)
      else (Raise "UnicodeDecodeError", st)
  | None => (Ok ∅, st)
  end.
Proof.
  unfold load_processed_files, exists_, read_text, mbind, M_bind, mret, M_ret.
  destruct (fs st !! PROCESSED_LIST root) as [bytes|] eqn:Hb.
  - rewrite bool_decide_eq_true_2 by eauto. rewrite Hb.
    by destruct (Py.utf8_valid bytes).
  - rewrite bool_decide_eq_false_2; [done|]. by intros [? ?].
Qed.

(** The run is the loading of the set, then the iterations over the
    collected files; when loading raises, nothing else happens. *)
Lemma cuda_main_spec t (st : state vars) :
  main E root t st =
  match load_processed_files root st with
  | (Ok known, _) => (Ok tt, steps E root (collect E root t) (entry E known st))
  | (Raise e, _) => (Raise e, st)
  end.
Proof.
  unfold main. unfold mbind at 1 2, M_bind.
  rewrite cuda_load_processed_files_spec.
  destruct (fs st !! PROCESSED_LIST root) as [bytes|];
    [destruct (Py.utf8_valid bytes)|]; try reflexivity.
  all: unfold set_locals; red_m; rewrite for_each_total by (intros; apply cuda_visit_ok);
    reflexivity.
Qed.



Lemma cuda_steps_invariant (P : state vars -> Prop) l st :
  P st -> (forall s x, x ∈ l -> P s -> P (step E root s x)) -> P (steps E root l st).
Proof.
  unfold steps. revert st. induction l as [|x l IH]; intros st H0 Hs; [done|].
  cbn [fold_left]. apply IH.
  - apply Hs; [left|done].
  - intros s y Hy. apply Hs. by right.
Qed.

End CudaFacts.

(** ** Attempts, failures and the trace in [transcribe_audio_cuda] *)
Section CudaMore.
Import Cuda CudaSpec.
Variable E : env.
Variable root : string.

Lemma cuda_visit_failure p (st : state vars) e t :
  ~ skipped st p -> is_Some (fs st !! p) -> fails E st p = Some (e, t) ->
  exists disk new,
    visit E root p st =
    (Ok tt,
     St (append_file (LOG_ERROR root)
                     (error_line E t p e +:+ String Py.LF EmptyString) disk)
        (S t) (trace st ++ (p, Transcribe) :: new) (locals st))
    /\ (forall q, q ∉ outputs p -> disk !! q = fs st !! q)
    /\ keeps_files (fs st) disk
    /\ Forall (fun x => fst x = p /\ snd x ≠ Transcribe) new.
Proof.
  intros Hs Hp Hf.
  destruct (cuda_visit_visited E root p st) as (k & st' & Hv & H).
  destruct H as [Hs'|_ Hp'|r _ _ _ Hf'|e' disk t' new _ _ Hf' Hfr Hk Hnew].
  - contradiction.
  - rewrite Hp' in Hp. by destruct Hp.
  - congruence.
  - rewrite Hf in Hf'. injection Hf' as <- <-. eauto 10.
Qed.

Lemma cuda_visit_success p (st : state vars) :
  ~ skipped st p -> is_Some (fs st !! p) -> fails E st p = None ->
  exists r, whisper E (S (tick st)) p = Ok r
            /\ visit E root p st = (Ok tt, success_state E root p r st).
Proof.
  intros Hs Hp Hf.
  destruct (cuda_visit_visited E root p st) as (k & st' & Hv & H).
  destruct H as [Hs'|_ Hp'|r _ _ Hw Hf'|e' disk t' new _ _ Hf' Hfr Hk Hnew].
  - contradiction.
  - rewrite Hp' in Hp. by destruct Hp.
  - eauto.
  - congruence.
Qed.

Lemma cuda_visit_missing p (st : state vars) :
  ~ skipped st p -> fs st !! p = None ->
  visit E root p st =
  (Ok tt,
   St (append_file (LOG_ERROR root)
         (error_line E (tick st) p "File not found" +:+ String Py.LF EmptyString)
         (fs st))
      (S (tick st)) (trace st) (locals st)).
Proof.
  intros Hs Hp.
  destruct (cuda_visit_visited E root p st) as (k & st' & Hv & H).
  destruct H as [Hs'|_ Hp'|r _ Hp' Hw Hf'|e' disk t' new _ Hp' Hf' Hfr Hk Hnew];
    try contradiction; try done.
  all: rewrite Hp in Hp'; by destruct Hp'.
Qed.




Lemma cuda_step_transcribes p s :
  ~ skipped s p -> is_Some (fs s !! p) ->
  exists new, trace (step E root s p) = trace s ++ (p, Transcribe) :: new.
Proof.
  intros Hs Hp. unfold step.
  destruct (fails E s p) as [[e t]|] eqn:Hf.
  - destruct (cuda_visit_failure p s e t Hs Hp Hf) as (disk & new & -> & _). cbn. eauto.
  - destruct (cuda_visit_success p s Hs Hp Hf) as (r & _ & ->). cbn. eauto.
Qed.


End CudaMore.

(** ** Invariants of a run of [transcribe_audio_cuda] *)
Section CudaInvariants.
Import Cuda CudaSpec.
Variable E : env.
Variable root : string.



Lemma cuda_visited_appended p st k st' q :
  visited E root p st k st' -> q ∉ outputs p -> appended (fs st) (fs st') q.
Proof.
  destruct 1; intros Hq; cbn [fs success_state]; try apply appended_refl.
  - apply appended_append_file.
  - eapply appended_trans; [|apply appended_append_file].
    eapply appended_trans; [|apply appended_append_file].
    apply appended_same. unfold outputs in Hq.
    rewrite !lookup_insert_ne; [done|set_solver..].
  - eapply appended_trans; [|apply appended_append_file].
    apply appended_same. auto.
Qed.

Lemma cuda_visited_frame p st k st' q :
  visited E root p st k st' -> q ∉ outputs p ->
  q ∉ [LOG_SUCCESS root; LOG_ERROR root; PROCESSED_LIST root] ->
  fs st' !! q = fs st !! q.
Proof.
  destruct 1; intros Hq Hl; cbn [fs success_state]; try reflexivity.
  - rewrite lookup_append_ne; [done|set_solver].
  - rewrite !lookup_append_ne by set_solver. unfold outputs in Hq.
    rewrite !lookup_insert_ne; [done|set_solver..].
  - rewrite lookup_append_ne by set_solver. auto.
Qed.








Lemma cuda_steps_appended l s q :
  (forall x, x ∈ l -> q ∉ outputs x) -> appended (fs s) (fs (steps E root l s)) q.
Proof.
  intros Hq.
  apply (cuda_steps_invariant E root (fun s' => appended (fs s) (fs s') q)).
  - apply appended_refl.
  - intros s' x Hx H. eapply appended_trans; [exact H|].
    destruct (cuda_step_visited E root x s') as [k Hv].
    eapply cuda_visited_appended; [exact Hv|]. by apply Hq.
Qed.

End CudaInvariants.

(** ** What a success leaves on the disk *)
Lemma cuda_logs_distinct root : Cuda.LOG_ERROR root ≠ Cuda.PROCESSED_LIST root.
Proof.
  unfold Cuda.LOG_ERROR, Cuda.PROCESSED_LIST, Py.join.
  change (Py.startswith "transcribe_log_error.txt" (String Py.SLASH EmptyString))
    with false.
  change (Py.startswith "transcribe_processed_files.txt" (String Py.SLASH EmptyString))
    with false.
  cbv iota. destruct (_ || _)%bool; intros H.
  - apply String.app_inj in H. discriminate H.
  - apply String.app_inj in H. discriminate H.
Qed.

Lemma success_state_records E C d f r (st : state V2.vars) :
  exists disk,
    fs (V2Spec.success_state E C (V2Spec.full E d f)
          (artifact d (fst (Py.splitext f)) ".txt")
          (artifact d (fst (Py.splitext f)) ".docx")
          (artifact d (fst (Py.splitext f)) ".pdf") r st)
    = append_file (V2.processed_list_abs C)
                  (V2Spec.full E d f +:+ String Py.LF EmptyString) disk
    /\ V2Spec.materialized disk d f.
Proof.
  eexists. split; [reflexivity|].
  unfold V2Spec.materialized, V2Spec.outputs. rewrite !Forall_cons.
  repeat split; [..|apply Forall_nil_2];
    apply keeps_files_append; rewrite !lookup_insert_is_Some'; auto.
Qed.

Lemma cuda_success_state_records E root p r (st : state Cuda.vars) :
  exists disk,
    fs (CudaSpec.success_state E root p r st)
    = append_file (Cuda.PROCESSED_LIST root) (p +:+ String Py.LF EmptyString) disk
    /\ CudaSpec.materialized disk p.
Proof.
  eexists. split; [reflexivity|].
  unfold CudaSpec.materialized, CudaSpec.outputs. rewrite !Forall_cons.
  repeat split; [..|apply Forall_nil_2];
    apply keeps_files_append; rewrite !lookup_insert_is_Some'; auto.
Qed.


(** ** Running again over what a run left *)
Section Again.
Import V2 V2Spec.
Variable E : env.
Variable C : config.





End Again.

Section Quiet.
Import V2 V2Spec.
Variable E : env.
Variable C : config.


End Quiet.

Section CudaAgain.
Import Cuda CudaSpec.
Variable E : env.
Variable root : string.



End CudaAgain.

(** ** The summary counters (C10) *)

(** C10.  After every run of [transcribe_folder] the counters of the summary
    satisfy total = skipped_processed + skipped_existing + succeeded +
    failed, the total is the number of candidate files of the walk, and the
    iteration of a candidate file adds one to the total and to exactly one
    of the four other counters. *)
Theorem C10_counters_balance (E : env) (C : V2.config) (t : dirtree)
    (st st' : state V2.vars) :
  V2.transcribe_folder E C t st = (Ok tt, st') ->
  let v := locals st' in
  V2.total v
  = V2.skipped_processed v + V2.skipped_existing v + V2.succeeded v + V2.failed v
  /\ V2.total v
     = length (filter (fun x => V2Spec.candidate E C (snd x))
                      (pairs (walk (V2.root_folder C) t)))
  /\ forall (s : state V2.vars) (d f : string),
       V2Spec.candidate E C f ->
       let u := locals s in
       let u' := locals (V2Spec.step E C s (d, f)) in
       V2.total u' = S (V2.total u)
       /\ ((V2.skipped_processed u' = S (V2.skipped_processed u)
            /\ V2.skipped_existing u' = V2.skipped_existing u
            /\ V2.succeeded u' = V2.succeeded u /\ V2.failed u' = V2.failed u)
           \/ (V2.skipped_processed u' = V2.skipped_processed u
               /\ V2.skipped_existing u' = S (V2.skipped_existing u)
               /\ V2.succeeded u' = V2.succeeded u /\ V2.failed u' = V2.failed u)
           \/ (V2.skipped_processed u' = V2.skipped_processed u
               /\ V2.skipped_existing u' = V2.skipped_existing u
               /\ V2.succeeded u' = S (V2.succeeded u)
               /\ V2.failed u' = V2.failed u)
           \/ (V2.skipped_processed u' = V2.skipped_processed u
               /\ V2.skipped_existing u' = V2.skipped_existing u
               /\ V2.succeeded u' = V2.succeeded u
               /\ V2.failed u' = S (V2.failed u))).
Proof.
  intros Hrun. rewrite transcribe_folder_spec in Hrun.
  destruct (V2.load_processed_set _ _) as [[known|e] s0]; [|discriminate].
  injection Hrun as <-. cbn zeta.
  split; [|split].
  - apply steps_balanced. unfold V2Spec.entry, V2Spec.balanced. reflexivity.
  - rewrite steps_total. reflexivity.
  - intros s d f Hc.
    destruct (step_visited E C (d, f) s) as [k H]. cbn [fst snd] in H.
    destruct H; cbn; [contradiction|..]; split; try reflexivity; tauto.
Qed.

Lemma C10_counters_balance_witness :
  let v := locals (snd (V2.transcribe_folder Sample.E Sample.C Sample.abc
                          Sample.start_abc)) in
  (V2.total v = 3 /\ V2.succeeded v = 2 /\ V2.failed v = 1)
  /\ V2.total v
     = V2.skipped_processed v + V2.skipped_existing v + V2.succeeded v + V2.failed v.
Proof.
  assert (V2.transcribe_folder Sample.E Sample.C Sample.abc Sample.start_abc
          = (Ok tt, snd (V2.transcribe_folder Sample.E Sample.C Sample.abc
                           Sample.start_abc))) as Hrun
    by (vm_compute; reflexivity).
  split; [vm_compute; auto|].
  exact (proj1 (C10_counters_balance _ _ _ _ _ Hrun)).
Defined.

(** ** Failure isolation (C2) *)




(** ** The logs only grow (C7) *)

(** C7, as the scripts have it: a path that is not an output ([.txt],
    [.docx], [.pdf]) of an audio file of the walk holds after the run what
    it held before, followed by zero or more new lines; this is so for the
    success log and the error log of either script when neither is such an
    output. *)
Theorem C7_logs_append_only :
  (forall (E : env) (C : V2.config) (t : dirtree) (st : state V2.vars)
          (log : string),
      log ∈ [V2.log_success_abs C; V2.log_error_abs C] ->
      (forall d f, (d, f) ∈ pairs (walk (V2.root_folder C) t) ->
                   V2Spec.candidate E C f -> log ∉ V2Spec.outputs d f) ->
      exists msgs,
        content (fs (snd (V2.transcribe_folder E C t st))) log
        = content (fs st) log +:+ lines_text msgs)
  /\
  (forall (E : env) (root : string) (t : dirtree) (st : state Cuda.vars)
          (log : string),
      log ∈ [Cuda.LOG_SUCCESS root; Cuda.LOG_ERROR root] ->
      (forall p, p ∈ Cuda.collect E root t -> log ∉ CudaSpec.outputs p) ->
      exists msgs,
        content (fs (snd (Cuda.main E root t st))) log
        = content (fs st) log +:+ lines_text msgs).
Proof.
  split.
  - intros E C t st log _ Hout. rewrite transcribe_folder_spec.
    destruct (V2.load_processed_set _ _) as [[known|e] s0]; cbn [snd].
    + change (appended (fs (V2Spec.entry E known st))
                (fs (V2Spec.steps E C (pairs (walk (V2.root_folder C) t))
                       (V2Spec.entry E known st))) log).
      apply steps_appended. intros [d f] Hx Hc. by apply Hout.
    + apply appended_refl.
  - intros E root t st log _ Hout. rewrite cuda_main_spec.
    destruct (Cuda.load_processed_files _ _) as [[known|e] s0]; cbn [snd].
    + change (appended (fs (CudaSpec.entry E known st))
                (fs (CudaSpec.steps E root (Cuda.collect E root t)
                       (CudaSpec.entry E known st))) log).
      by apply cuda_steps_appended.
    + apply appended_refl.
Qed.

Lemma C7_logs_append_only_witness :
  (V2.log_error_abs Sample.C ∈ [V2.log_success_abs Sample.C; V2.log_error_abs Sample.C]
   /\ (forall d f, (d, f) ∈ pairs (walk (V2.root_folder Sample.C) Sample.abc) ->
                   V2Spec.candidate Sample.E Sample.C f ->
                   V2.log_error_abs Sample.C ∉ V2Spec.outputs d f))
  /\ exists msgs,
       content (fs (snd (V2.transcribe_folder Sample.E Sample.C Sample.abc
                           Sample.start_abc))) (V2.log_error_abs Sample.C)
       = content (fs Sample.start_abc) (V2.log_error_abs Sample.C)
         +:+ lines_text msgs.
Proof.
  assert (V2.log_error_abs Sample.C
            ∈ [V2.log_success_abs Sample.C; V2.log_error_abs Sample.C]) as Hin
    by (apply (bool_decide_unpack _); vm_compute; exact I).
  assert (forall d f, (d, f) ∈ pairs (walk (V2.root_folder Sample.C) Sample.abc) ->
                      V2Spec.candidate Sample.E Sample.C f ->
                      V2.log_error_abs Sample.C ∉ V2Spec.outputs d f) as Hout.
  { intros d f Hx _.
    change (pairs (walk (V2.root_folder Sample.C) Sample.abc))
      with [("/r", "a.wav"); ("/r", "b.wav"); ("/r", "c.wav")] in Hx.
    rewrite !elem_of_cons, elem_of_nil in Hx.
    destruct Hx as [[= -> ->]|[[= -> ->]|[[= -> ->]|[]]]];
      apply (bool_decide_unpack _); vm_compute; exact I. }
  split; [exact (conj Hin Hout)|].
  exact (proj1 C7_logs_append_only Sample.E Sample.C Sample.abc Sample.start_abc
           _ Hin Hout).
Defined.

(** The claim without the proviso fails: an audio file named like the error
    log has that log as its [.txt] output, and transcribing it replaces the
    lines the log held. *)
Lemma C7_counterexample_log_overwritten :
  let before := Sample.start_namesake in
  let after := snd (Cuda.main Sample.E "/r" Sample.namesake before) in
  content (fs before) (Cuda.LOG_ERROR "/r") = "2024-12-31 | ERROR | /r/x.wav | old"
  /\ content (fs after) (Cuda.LOG_ERROR "/r") = "xin chao"
  /\ ~ exists msgs,
         content (fs after) (Cuda.LOG_ERROR "/r")
         = content (fs before) (Cuda.LOG_ERROR "/r") +:+ lines_text msgs.
Proof.
  cbn zeta.
  assert (content (fs (snd (Cuda.main Sample.E "/r" Sample.namesake
                              Sample.start_namesake))) (Cuda.LOG_ERROR "/r")
          = "xin chao") as Hafter by (vm_compute; reflexivity).
  split; [vm_compute; reflexivity|]. split; [exact Hafter|].
  intros [msgs H]. rewrite Hafter in H.
  change (content (fs Sample.start_namesake) (Cuda.LOG_ERROR "/r"))
    with "2024-12-31 | ERROR | /r/x.wav | old" in H.
  discriminate H.
Qed.

(** ** Promotion of files whose outputs exist (C1) *)





(** ** Recording only after the three writes (C3) *)

(** C3, as the scripts have it.  For a file the iteration attempts: when
    Whisper or one of the three writers fails, the processed set in memory
    is left as it was, and so is the processed-list file unless it is one of
    the file's outputs or the error log; when nothing fails, the path is
    recorded (appended to the processed-list file, and in
    [transcribe_mp3_v2] added to the set) on a disk that holds the three
    outputs, after the calls to Whisper and the three writers.  A later
    iteration attempts the file again when it is still unrecorded and one of
    its three outputs is missing then. *)
Theorem C3_recorded_after_writes :
  (forall (E : env) (C : V2.config) (st : state V2.vars) (d f : string),
      V2Spec.eligible E C st d f ->
      let after := V2Spec.step E C st (d, f) in
      (forall e t,
          V2Spec.fails E st d f = Some (e, t) ->
          V2.processed (locals after) = V2.processed (locals st)
          /\ (V2.processed_list_abs C ∉ V2Spec.outputs d f ->
              V2.processed_list_abs C ≠ V2.log_error_abs C ->
              fs after !! V2.processed_list_abs C = fs st !! V2.processed_list_abs C))
      /\ (V2Spec.fails E st d f = None ->
          V2.processed (locals after) = {[V2Spec.full E d f]} ∪ V2.processed (locals st)
          /\ (exists disk,
                fs after = append_file (V2.processed_list_abs C)
                             (V2Spec.full E d f +:+ String Py.LF EmptyString) disk
                /\ V2Spec.materialized disk d f)
          /\ calls_for (V2Spec.full E d f) (trace after)
             = calls_for (V2Spec.full E d f) (trace st)
               ++ [Transcribe; SaveTxt; SaveDocx; SavePdf])
      /\ (forall later : state V2.vars,
            V2Spec.full E d f ∉ V2.processed (locals later) ->
            ~ V2Spec.materialized (fs later) d f ->
            (V2Spec.full E d f, Transcribe) ∈ trace (V2Spec.step E C later (d, f))))
  /\
  (forall (E : env) (root : string) (st : state Cuda.vars) (p : string),
      ~ CudaSpec.skipped st p -> is_Some (fs st !! p) ->
      let after := CudaSpec.step E root st p in
      (forall e t,
          CudaSpec.fails E st p = Some (e, t) ->
          Cuda.PROCESSED_LIST root ∉ CudaSpec.outputs p ->
          fs after !! Cuda.PROCESSED_LIST root = fs st !! Cuda.PROCESSED_LIST root)
      /\ (CudaSpec.fails E st p = None ->
          (exists disk,
             fs after = append_file (Cuda.PROCESSED_LIST root)
                          (p +:+ String Py.LF EmptyString) disk
             /\ CudaSpec.materialized disk p)
          /\ calls_for p (trace after)
             = calls_for p (trace st) ++ [Transcribe; SaveTxt; SaveDocx; SavePdf])
      /\ (forall later : state Cuda.vars,
            ~ CudaSpec.skipped later p -> is_Some (fs later !! p) ->
            (p, Transcribe) ∈ trace (CudaSpec.step E root later p))).
Proof.
  split.
  - intros E C st d f Hel after. split; [|split].
    + intros e t Hf.
      destruct (visit_failure E C d f st e t Hel Hf) as (disk & new & Hv & Hfr & _).
      unfold after, V2Spec.step. cbn [fst snd]. rewrite Hv. cbn [snd locals fs].
      split; [reflexivity|]. intros Hout Hne.
      rewrite lookup_append_ne by done. by apply Hfr.
    + intros Hf.
      destruct (visit_success E C d f st Hel Hf) as (r & _ & Hv).
      unfold after, V2Spec.step. cbn [fst snd]. rewrite Hv. cbn [snd].
      split; [reflexivity|]. split; [apply success_state_records|].
      unfold V2Spec.success_state. cbn [trace]. rewrite calls_for_app. f_equal.
      unfold calls_for. rewrite !filter_cons, !decide_True by reflexivity.
      reflexivity.
    + intros later Hin Hm.
      destruct (step_eligible_transcribes E C d f later) as (new & ->).
      * destruct Hel as (Hc & _). by repeat split.
      * apply elem_of_app. right. left.
  - intros E root st p Hs Hp after. split; [|split].
    + intros e t Hf Hout.
      destruct (cuda_visit_failure E root p st e t Hs Hp Hf) as (disk & new & Hv & Hfr & _).
      unfold after, CudaSpec.step. rewrite Hv. cbn [snd fs].
      rewrite lookup_append_ne by apply cuda_logs_distinct. by apply Hfr.
    + intros Hf.
      destruct (cuda_visit_success E root p st Hs Hp Hf) as (r & _ & Hv).
      unfold after, CudaSpec.step. rewrite Hv. cbn [snd].
      split; [apply cuda_success_state_records|].
      unfold CudaSpec.success_state. cbn [trace]. rewrite calls_for_app. f_equal.
      unfold calls_for. rewrite !filter_cons, !decide_True by reflexivity.
      reflexivity.
    + intros later Hs' Hp'.
      destruct (cuda_step_transcribes E root p later Hs' Hp') as (new & ->).
      apply elem_of_app. right. left.
Qed.

Lemma C3_recorded_after_writes_witness :
  let st := V2Spec.steps Sample.E Sample.C [("/r", "a.wav")]
                         (V2Spec.entry Sample.E ∅ Sample.start_abc) in
  (V2Spec.eligible Sample.E Sample.C st "/r" "b.wav"
   /\ V2Spec.fails Sample.E st "/r" "b.wav" = Some ("bad audio", 9))
  /\ V2.processed (locals (V2Spec.step Sample.E Sample.C st ("/r", "b.wav")))
     = V2.processed (locals st).
Proof.
  intros st.
  assert (V2Spec.eligible Sample.E Sample.C st "/r" "b.wav") as Hel.
  { split; [vm_compute; reflexivity|].
    split; apply (bool_decide_unpack _); vm_compute; exact I. }
  assert (V2Spec.fails Sample.E st "/r" "b.wav" = Some ("bad audio", 9)) as Hf
    by (vm_compute; reflexivity).
  split; [exact (conj Hel Hf)|].
  exact (proj1 (proj1 (proj1 C3_recorded_after_writes Sample.E Sample.C st
                         "/r" "b.wav" Hel) "bad audio" 9 Hf)).
Defined.

(** The last part of the claim fails without the proviso: the writing of the
    [.pdf] raises and leaves the stale [.pdf]; the file is not recorded, but
    its three output paths exist now, and the next run passes it over
    (and records it) instead of attempting it again. *)
Lemma C3_counterexample_stale_output_blocks_retry :
  let first := snd (V2.transcribe_folder Sample.E Sample.C Sample.stale
                      Sample.start_stale) in
  let second := snd (V2.transcribe_folder Sample.E Sample.C Sample.stale first) in
  V2Spec.fails Sample.E (V2Spec.entry Sample.E ∅ Sample.start_stale) "/r" "old.wav"
  = Some ("font error", 5)
  /\ V2.failed (locals first) = 1
  /\ ("/r/old.wav" ∉ V2.processed (locals first))
  /\ fs first !! V2.processed_list_abs Sample.C = None
  /\ calls_for "/r/old.wav" (trace first) = [Transcribe; SaveTxt; SaveDocx; SavePdf]
  /\ trace second = trace first
  /\ V2.skipped_existing (locals second) = 1
  /\ "/r/old.wav" ∈ V2.processed (locals second).
Proof.
  cbn zeta. split; [vm_compute; reflexivity|]. split; [vm_compute; reflexivity|].
  split; [apply (bool_decide_unpack _); vm_compute; exact I|].
  split; [vm_compute; reflexivity|]. split; [vm_compute; reflexivity|].
  split; [vm_compute; reflexivity|]. split; [vm_compute; reflexivity|].
  apply (bool_decide_unpack _). vm_compute. exact I.
Qed.

(** ** Which files are processed (C5) *)




(** ** Running twice (C6) *)






(** ** Loading the processed list (C4) *)

(** C4, as the scripts have it.  Loading the processed list returns the
    empty set when the file is missing and a set of lines when the bytes of
    the file decode as UTF-8; on bytes that do not decode (a line cut in the
    middle of a character) it raises.  In [transcribe_mp3_v2] the set holds
    the stripped, non-empty lines; in [transcribe_audio_cuda] the lines as
    they are.  A file of complete lines followed by a last line cut short
    but decodable loads, the cut line being a member like the others; a
    line that occurs several times is one member. *)
Theorem C4_load_of_decodable_bytes :
  (forall (path : string) (st : state V2.vars),
      (fs st !! path = None -> V2.load_processed_set path st = (Ok ∅, st))
      /\ (forall bytes,
            fs st !! path = Some bytes -> Py.utf8_valid bytes = true ->
            exists known,
              V2.load_processed_set path st = (Ok known, st)
              /\ forall p, p ∈ known <->
                           p ≠ EmptyString
                           /\ exists ln,
                                ln ∈ Py.splitlines (Py.universal_newlines bytes)
                                /\ p = Py.strip ln)
      /\ (forall bytes,
            fs st !! path = Some bytes -> Py.utf8_valid bytes = false ->
            V2.load_processed_set path st = (Raise "UnicodeDecodeError", st))
      /\ (forall lines tail,
            Forall (fun p => one_line p /\ bare p) lines ->
            tail = EmptyString \/ (one_line tail /\ bare tail) ->
            fs st !! path = Some (lines_text lines +:+ tail) ->
            V2.load_processed_set path st
            = (Ok (list_to_set (lines ++ Py.splitlines tail)), st)))
  /\
  (forall (root : string) (st : state Cuda.vars),
      (fs st !! Cuda.PROCESSED_LIST root = None ->
       Cuda.load_processed_files root st = (Ok ∅, st))
      /\ (forall bytes,
            fs st !! Cuda.PROCESSED_LIST root = Some bytes ->
            Py.utf8_valid bytes = true ->
            Cuda.load_processed_files root st
            = (Ok (list_to_set (Py.splitlines (Py.universal_newlines bytes))), st))
      /\ (forall bytes,
            fs st !! Cuda.PROCESSED_LIST root = Some bytes ->
            Py.utf8_valid bytes = false ->
            Cuda.load_processed_files root st = (Raise "UnicodeDecodeError", st))
      /\ (forall lines tail,
            Forall one_line lines -> tail = EmptyString \/ one_line tail ->
            fs st !! Cuda.PROCESSED_LIST root = Some (lines_text lines +:+ tail) ->
            Cuda.load_processed_files root st
            = (Ok (list_to_set (lines ++ Py.splitlines tail)), st))).
Proof.
  split.
  - intros path st. split; [|split; [|split]].
    + intros H. by rewrite load_processed_set_spec, H.
    + intros bytes H Hv. exists (V2Spec.stored bytes).
      rewrite load_processed_set_spec, H, Hv. split; [done|].
      intros p. unfold V2Spec.stored.
      rewrite elem_of_list_to_set, list_elem_of_filter, list_elem_of_fmap.
      split; intros [? (ln & ? & ?)]; eauto.
    + intros bytes H Hv. by rewrite load_processed_set_spec, H, Hv.
    + intros lines tail Hl Ht H. rewrite load_processed_set_spec, H.
      destruct (lines_read lines tail) as [-> _].
      { eapply Forall_impl; [exact Hl|]. by intros p [? _]. }
      { destruct Ht as [?|[? _]]; auto. }
      by rewrite stored_lines.
  - intros root st. split; [|split; [|split]].
    + intros H. by rewrite cuda_load_processed_files_spec, H.
    + intros bytes H Hv. by rewrite cuda_load_processed_files_spec, H, Hv.
    + intros bytes H Hv. by rewrite cuda_load_processed_files_spec, H, Hv.
    + intros lines tail Hl Ht H. rewrite cuda_load_processed_files_spec, H.
      destruct (lines_read lines tail Hl Ht) as [-> Hs].
      unfold CudaSpec.stored. by rewrite Hs.
Qed.

Lemma C4_load_of_decodable_bytes_witness :
  (Forall (fun p => one_line p /\ bare p) ["/r/a.wav"; "/r/a.wav"]
   /\ (one_line "/r/b.w" /\ bare "/r/b.w")
   /\ fs Sample.start_cut !! "/log/processed_files.txt"
      = Some (lines_text ["/r/a.wav"; "/r/a.wav"] +:+ "/r/b.w"))
  /\ V2.load_processed_set "/log/processed_files.txt" Sample.start_cut
     = (Ok {[ "/r/a.wav"; "/r/b.w" ]}, Sample.start_cut).
Proof.
  assert (Forall (fun p => one_line p /\ bare p) ["/r/a.wav"; "/r/a.wav"]) as Hl
    by (repeat constructor).
  assert (one_line "/r/b.w" /\ bare "/r/b.w") as Ht by (repeat constructor).
  assert (fs Sample.start_cut !! "/log/processed_files.txt"
          = Some (lines_text ["/r/a.wav"; "/r/a.wav"] +:+ "/r/b.w")) as Hfs
    by (vm_compute; reflexivity).
  split; [exact (conj Hl (conj Ht Hfs))|].
  rewrite (proj2 (proj2 (proj2 (proj1 C4_load_of_decodable_bytes
                                  "/log/processed_files.txt" Sample.start_cut)))
             ["/r/a.wav"; "/r/a.wav"] "/r/b.w" Hl (or_intror Ht) Hfs).
  vm_compute. reflexivity.
Defined.

(** The claim fails as soon as the file does not decode: a last line cut
    between the two bytes of a letter makes both loaders raise. *)
Lemma C4_counterexample_torn_character :
  Py.utf8_valid Sample.torn_bytes = false
  /\ V2.load_processed_set "/log/processed_files.txt" Sample.start_torn
     = (Raise "UnicodeDecodeError", Sample.start_torn)
  /\ fst (V2.transcribe_folder Sample.E Sample.C Sample.abc Sample.start_torn)
     = Raise "UnicodeDecodeError"
  /\ Cuda.load_processed_files "/r" Sample.start_torn_cuda
     = (Raise "UnicodeDecodeError", Sample.start_torn_cuda).
Proof. repeat split; vm_compute; reflexivity. Qed.

(** ** The paragraphs of the [.docx] (C8) *)

(** C8, as the scripts have it.  [save_docx] of [transcribe_audio_cuda]
    strips the text, cuts it at each pair of line feeds and makes one
    paragraph of each piece, stripped: a text made of segments separated by
    one blank line each (the segments and the text having no white space at
    their ends, and no blank line inside a segment) gives exactly one
    paragraph per segment.  [save_docx] of [transcribe_mp3_v2] makes one paragraph of
    the whole text. *)
Theorem C8_docx_paragraphs :
  (forall segs : list string,
      segs ≠ [] ->
      Forall (fun s => bare s /\ Py.split_blank s = [s]) segs ->
      bare (join_blank segs) ->
      Cuda.docx_paragraphs (join_blank segs) = segs)
  /\ (forall (E : env) (text path : string) (st : state Cuda.vars),
        docx_fault E (tick st) path = None ->
        fs (snd (Cuda.save_docx E text path st)) !! path
        = Some (docx_bytes E (Cuda.docx_paragraphs text)))
  /\ (forall (E : env) (text path : string) (st : state V2.vars),
        docx_fault E (tick st) path = None ->
        fs (snd (V2.save_docx E text path st)) !! path
        = Some (docx_bytes E [text])).
Proof.
  split; [|split].
  - intros segs Hne Hsegs Hbare. unfold Cuda.docx_paragraphs.
    unfold bare in Hbare. rewrite Hbare, split_blank_join; [|done|].
    + clear Hne Hbare. induction Hsegs as [|s l [Hs _] _ IH]; [done|].
      cbn [map]. rewrite Hs. by f_equal.
    + eapply Forall_impl; [exact Hsegs|]. intros s [Hb Hs]. split; [done|].
      intros x ->. by apply (bare_no_final_lf x).
  - intros E text path st Hf.
    unfold Cuda.save_docx, external_write, next_tick, set_fs, mbind, M_bind.
    cbn beta iota zeta delta [fst snd fs tick trace locals]. rewrite Hf.
    cbn [snd fs]. apply lookup_insert_eq.
  - intros E text path st Hf.
    unfold V2.save_docx, V2.ensure_parent_dir, external_write, next_tick, set_fs,
      mbind, M_bind, mret, M_ret.
    cbn beta iota zeta delta [fst snd fs tick trace locals]. rewrite Hf.
    cbn [snd fs]. apply lookup_insert_eq.
Qed.

Lemma C8_docx_paragraphs_witness :
  (["xin chao"; "tam biet"] ≠ []
   /\ Forall (fun s => bare s /\ Py.split_blank s = [s]) ["xin chao"; "tam biet"]
   /\ bare (join_blank ["xin chao"; "tam biet"]))
  /\ Cuda.docx_paragraphs (join_blank ["xin chao"; "tam biet"])
     = ["xin chao"; "tam biet"].
Proof.
  assert (["xin chao"; "tam biet"] ≠ @nil string) as Hne by discriminate.
  assert (Forall (fun s => bare s /\ Py.split_blank s = [s]) ["xin chao"; "tam biet"])
    as Hs by (repeat constructor).
  assert (bare (join_blank ["xin chao"; "tam biet"])) as Hb by (vm_compute; reflexivity).
  split; [exact (conj Hne (conj Hs Hb))|].
  exact (proj1 C8_docx_paragraphs _ Hne Hs Hb).
Defined.

(** The claim fails on [transcribe_mp3_v2]: two segments separated by a
    blank line make one paragraph, not two. *)
Lemma C8_counterexample_v2_single_paragraph :
  let text := join_blank ["xin chao"; "tam biet"] in
  let st := St ∅ 0 [] Sample.blank_v2 in
  fs (snd (V2.save_docx Sample.E text "/r/a.docx" st)) !! "/r/a.docx"
  = Some (docx_bytes Sample.E [text])
  /\ V2.docx_paragraphs text = [text]
  /\ V2.docx_paragraphs text ≠ ["xin chao"; "tam biet"].
Proof.
  cbn zeta. split; [vm_compute; reflexivity|]. split; [reflexivity|].
  vm_compute. discriminate.
Qed.

(** ** Discovery (C9) *)


